(** * Workout metrics calculator: a shallow embedding of both versions

    The repository holds two near-duplicate Go programs,
    [src/main.go] and [src/unnamed/part_000].  Each computes the distance,
    the mean speed and the calories of a workout and prints a summary of
    three compiled-in sample workouts.

    The embedding keeps the data of the source:
    - [float64] is IEEE 754 binary64, taken from the Standard Library's
      executable specification [SpecFloat] (precision 53, [emax] 1024),
      every operation rounded on its own to nearest-even;
    - [int] and [time.Duration] are 64-bit signed integers, carried as [Z];
    - printed text is a [string] of UTF-8 bytes.

    Module [MainGo] embeds [src/main.go], module [Part000] embeds
    [src/unnamed/part_000]; the modules before them embed the pieces of the
    Go standard library both programs call ([time], [math], [fmt]). *)

From Stdlib Require Import ZArith Bool List Lia.
From Stdlib Require Import Ascii String DecimalString.
From Stdlib Require Import Floats.SpecFloat.
Import ListNotations.

Local Open Scope Z_scope.

(* ================================================================= *)
(** ** Go's [int]: 64-bit two's complement *)

Module GoInt.

Definition min_int : Z := - 2 ^ 63.
Definition max_int : Z := 2 ^ 63 - 1.

Definition in_range (z : Z) : Prop := min_int <= z <= max_int.

(** The value an [int] expression keeps after overflow. *)
Definition wrap (z : Z) : Z := (z + 2 ^ 63) mod 2 ^ 64 - 2 ^ 63.

(** [a * b] on [int]. *)
Definition mul (a b : Z) : Z := wrap (a * b).

End GoInt.

(* ================================================================= *)
(** ** Go's [float64] *)

Module F64.

Definition prec : Z := 53.
Definition emax : Z := 1024.

Definition float64 : Type := spec_float.

Definition add : float64 -> float64 -> float64 := SFadd prec emax.
Definition mul : float64 -> float64 -> float64 := SFmul prec emax.
Definition div : float64 -> float64 -> float64 := SFdiv prec emax.

(** The comparisons [x == y], [x < y] and [x <= y]; all three are false
    when an operand is NaN. *)
Definition eqb : float64 -> float64 -> bool := SFeqb.
Definition ltb : float64 -> float64 -> bool := SFltb.
Definition leb : float64 -> float64 -> bool := SFleb.

(** The conversion [float64(n)] of an integer. *)
Definition of_int (n : Z) : float64 := binary_normalize prec emax n 0 false.

(** The [float64] an untyped decimal constant [n / d] denotes: the
    nearest binary64 to the exact quotient, which is what the correctly
    rounded division of the two (exactly representable) integers gives. *)
Definition of_decimal (n d : Z) : float64 := div (of_int n) (of_int d).

Definition zero : float64 := S754_zero false.

(** The float [m * 2 ^ e], rounded. *)
Definition ldexp (m e : Z) : float64 := binary_normalize prec emax m e false.

Definition is_nan (x : float64) : bool :=
  match x with S754_nan => true | _ => false end.

(** [x] is not a negative number: it is NaN, a zero of either sign, a
    positive finite number or +Inf.  This is the negation of Go's
    [x < 0]. *)
Definition not_negative (x : float64) : Prop := ltb x zero = false.

(** [x] is a number and [0 <= x]. *)
Definition nonneg (x : float64) : Prop := leb zero x = true.

(** [x] is a zero, a finite number or an infinity whose sign bit is [s]. *)
Definition sign_is (s : bool) (x : float64) : Prop :=
  match x with
  | S754_nan => False
  | S754_zero s' | S754_infinity s' | S754_finite s' _ _ => s' = s
  end.

(** The sign bit of [x] is clear or [x] is NaN.  Such a value is never
    negative, and neither is the quotient of two of them (a divisor [-0]
    would turn a positive dividend into [-Inf]). *)
Definition NN (x : float64) : Prop :=
  match x with
  | S754_nan => True
  | S754_zero s | S754_infinity s | S754_finite s _ _ => s = false
  end.

(** The sign bit of a number; NaN carries none. *)
Definition sign_bit (x : float64) : bool :=
  match x with
  | S754_nan => false
  | S754_zero s | S754_infinity s | S754_finite s _ _ => s
  end.

(** [x] has the sign [s] and a magnitude of at least [2 ^ (k - 1)]: it is
    the infinity of that sign, or a finite number [m * 2 ^ e] whose
    mantissa has at least [k - e] binary digits. *)
Definition order_ge (s : bool) (k : Z) (x : float64) : Prop :=
  match x with
  | S754_infinity s' => s' = s
  | S754_finite s' m e => s' = s /\ k <= Z.pos (digits2_pos m) + e
  | _ => False
  end.

(** The exact value of a finite float is [fst * 2 ^ snd]. *)
Definition exact (x : float64) : option (Z * Z) :=
  match x with
  | S754_zero _ => Some (0, 0)
  | S754_finite s m e => Some (if s then Z.neg m else Z.pos m, e)
  | _ => None
  end.

(** [n1 / d1 <= x <= n2 / d2] on exact values, for positive [d1], [d2];
    false when [x] is not finite. *)
Definition between (n1 d1 : Z) (x : float64) (n2 d2 : Z) : bool :=
  match exact x with
  | Some (m, e) =>
      if 0 <=? e
      then (n1 <=? m * 2 ^ e * d1) && (m * 2 ^ e * d2 <=? n2)
      else (n1 * 2 ^ (- e) <=? m * d1) && (m * d2 <=? n2 * 2 ^ (- e))
  | None => false
  end.

(** [|x - n / d| <= tn / td]. *)
Definition within (x : float64) (n d tn td : Z) : bool :=
  between (n * td - tn * d) (d * td) x (n * td + tn * d) (d * td).

End F64.

Import F64.

Declare Scope f64_scope.
Delimit Scope f64_scope with f64.
Bind Scope f64_scope with float64.
Infix "+" := F64.add : f64_scope.
Infix "*" := F64.mul : f64_scope.
Infix "/" := F64.div : f64_scope.
Infix "==" := F64.eqb (at level 70, no associativity) : f64_scope.
Infix "<=?" := F64.leb : f64_scope.
Infix "<?" := F64.ltb : f64_scope.

(* ================================================================= *)
(** ** Package [math] *)

Module Math.

(** [math.Pow(x, 2)].  Both programs call [math.Pow] with the constant
    exponent 2 only; the library squares the mantissa with one rounded
    multiplication and scales by a power of two, which is the rounded
    product [x * x]. *)
Definition Pow2 (x : float64) : float64 := (x * x)%f64.

End Math.

(* ================================================================= *)
(** ** Package [time] *)

Module Time.

(** [time.Duration] counts nanoseconds in an [int64]. *)
Definition Duration : Type := Z.

Definition Nanosecond : Duration := 1.
Definition Second : Duration := 1000000000.
Definition Minute : Duration := 60 * Second.
Definition Hour : Duration := 60 * Minute.

(** [d.Hours()]: integer division truncates towards zero and the
    remainder takes the sign of [d]. *)
Definition Hours (d : Duration) : float64 :=
  let hour := Z.quot d Hour in
  let nsec := Z.rem d Hour in
  (of_int hour + of_int nsec / of_int (60 * 60 * 1000000000))%f64.

(** [d.Minutes()]. *)
Definition Minutes (d : Duration) : float64 :=
  let min := Z.quot d Minute in
  let nsec := Z.rem d Minute in
  (of_int min + of_int nsec / of_int (60 * 1000000000))%f64.

End Time.

(* ================================================================= *)
(** ** Package [fmt] *)

Module Fmt.

Local Open Scope string_scope.

Definition nl : string := String (ascii_of_nat 10) EmptyString.

(** Decimal digits of a natural number. *)
Definition digits (n : Z) : string :=
  NilZero.string_of_uint (N.to_uint (Z.to_N n)).

Fixpoint zeros (n : nat) : string :=
  match n with
  | O => ""
  | S k => "0" ++ zeros k
  end.

(** [n] written with at least [p] digits. *)
Definition pad (p : nat) (n : Z) : string :=
  let s := digits n in
  zeros (p - String.length s) ++ s.

(** [n / d] rounded to the nearest integer, ties to even
    ([0 <= n], [0 < d]). *)
Definition round_half_even (n d : Z) : Z :=
  let q := n / d in
  let r := n mod d in
  match 2 * r ?= d with
  | Lt => q
  | Gt => q + 1
  | Eq => if Z.even q then q else q + 1
  end.

(** The digits of [k / 10 ^ p] with [p] decimals. *)
Definition fixed (p : nat) (k : Z) : string :=
  let scale := 10 ^ Z.of_nat p in
  match p with
  | O => digits k
  | _ => digits (k / scale) ++ "." ++ pad p (k mod scale)
  end.

(** The verb [%.pf]: the exact value of the float, rounded to [p]
    decimals, ties to even. *)
Definition verb_f (p : nat) (x : float64) : string :=
  let scale := 10 ^ Z.of_nat p in
  match x with
  | S754_nan => "NaN"
  | S754_infinity s => if s then "-Inf" else "+Inf"
  | S754_zero s => (if s then "-" else "") ++ fixed p 0
  | S754_finite s m e =>
      let k := if (0 <=? e)%Z
               then Z.pos m * 2 ^ e * scale
               else round_half_even (Z.pos m * scale) (2 ^ (- e)) in
      (if s then "-" else "") ++ fixed p k
  end.

(** [fmt.Println(s)] writes [s] and a newline. *)
Definition Println (s : string) : string := s ++ nl.

(** The text starts with a minus sign. *)
Definition starts_with_minus (s : string) : bool :=
  match s with
  | String c _ => Ascii.eqb c "-"%char
  | EmptyString => false
  end.

(** The number of newline characters of a text. *)
Fixpoint count_nl (s : string) : nat :=
  match s with
  | EmptyString => O
  | String c r =>
      ((if Ascii.eqb c (ascii_of_nat 10) then 1 else 0) + count_nl r)%nat
  end.

End Fmt.

(** [fmt.Println] appends its operand and a newline to standard output. *)
Definition Stdout : Type := string.

Definition Println (s : string) (out : Stdout) : Stdout :=
  (out ++ s ++ Fmt.nl)%string.

(* ================================================================= *)
(** ** [src/main.go] *)

Module MainGo.

Local Open Scope f64_scope.

(** Constants shared by the computations. *)
Definition MInKm : float64 := of_int 1000.
Definition MinInHours : float64 := of_int 60.
Definition LenStepConst : float64 := of_decimal 65 100.
Definition CmInM : float64 := of_int 100.

Module InfoMessage.

Record t : Type := Build {
  TrainingType : string;
  Duration : Time.Duration;
  Distance : float64;
  MeanSpeed : float64;
  Calories : float64
}.

(** The assignment [infoMsg.Calories = c] on a local copy. *)
Definition set_Calories (infoMsg : t) (c : float64) : t :=
  Build (TrainingType infoMsg) (Duration infoMsg) (Distance infoMsg)
        (MeanSpeed infoMsg) c.

Definition String (infoMsg : t) : string :=
  ("Тип тренировки: " ++ TrainingType infoMsg ++ Fmt.nl ++
   "Длительность: " ++ Fmt.verb_f 0 (Time.Minutes (Duration infoMsg)) ++
     " мин" ++ Fmt.nl ++
   "Дистанция: " ++ Fmt.verb_f 2 (Distance infoMsg) ++ " км" ++ Fmt.nl ++
   "Ср. скорость: " ++ Fmt.verb_f 2 (MeanSpeed infoMsg) ++ " км/ч" ++
     Fmt.nl ++
   "Потрачено ккал: " ++ Fmt.verb_f 2 (Calories infoMsg) ++ Fmt.nl)%string.

End InfoMessage.

Module Training.

Record t : Type := Build {
  TrainingType : string;
  Action : Z;
  LenStep : float64;
  Duration : Time.Duration;
  Weight : float64
}.

Definition distance (train : t) : float64 :=
  if (Action train <=? 0)%Z || (LenStep train <=? zero) then zero
  else of_int (Action train) * LenStep train / MInKm.

Definition meanSpeed (train : t) : float64 :=
  if Time.Hours (Duration train) == zero then zero
  else distance train / Time.Hours (Duration train).

Definition Calories (train : t) : float64 := zero.

Definition TrainingInfo (train : t) : InfoMessage.t :=
  InfoMessage.Build (TrainingType train) (Duration train)
    (distance train) (meanSpeed train) (Calories train).

End Training.

(** The interface [CaloriesCalculator]. *)
Class CaloriesCalculator (T : Type) : Type := {
  Calories : T -> float64;
  TrainingInfo : T -> InfoMessage.t
}.

Definition CaloriesMeanSpeedMultiplier : float64 := of_int 18.
Definition CaloriesMeanSpeedShift : float64 := of_decimal 179 100.

Module Running.

Record t : Type := Build { Training : Training.t }.

(** Promoted from the embedded [Training]. *)
Definition meanSpeed (run : t) : float64 :=
  Training.meanSpeed (Training run).

Definition Calories (run : t) : float64 :=
  if (meanSpeed run == zero) || (Training.Weight (Training run) <=? zero)
  then zero
  else (CaloriesMeanSpeedMultiplier * meanSpeed run
          + CaloriesMeanSpeedShift)
       * Training.Weight (Training run) / MInKm
       * (Time.Hours (Training.Duration (Training run)) * MinInHours).

Definition TrainingInfo (run : t) : InfoMessage.t :=
  Training.TrainingInfo (Training run).

End Running.

Definition CaloriesWeightMultiplier : float64 := of_decimal 35 1000.
Definition CaloriesSpeedHeightMultiplier : float64 := of_decimal 29 1000.
Definition KmHInMsec : float64 := of_decimal 278 1000.

Module Walking.

Record t : Type := Build { Training : Training.t; Height : float64 }.

(** Promoted from the embedded [Training]. *)
Definition meanSpeed (walk : t) : float64 :=
  Training.meanSpeed (Training walk).

Definition Calories (walk : t) : float64 :=
  if (Training.Weight (Training walk) <=? zero)
     || (Height walk <=? zero)
     || (meanSpeed walk == zero)
  then zero
  else
    let speedInMs := meanSpeed walk * KmHInMsec in
    let heightInM := Height walk / CmInM in
    (CaloriesWeightMultiplier * Training.Weight (Training walk)
     + Math.Pow2 speedInMs / heightInM * CaloriesSpeedHeightMultiplier
       * Training.Weight (Training walk))
    * Time.Hours (Training.Duration (Training walk)) * MinInHours.

Definition TrainingInfo (walk : t) : InfoMessage.t :=
  Training.TrainingInfo (Training walk).

End Walking.

Definition SwimmingLenStep : float64 := of_decimal 138 100.
Definition SwimmingCaloriesMeanSpeedShift : float64 := of_decimal 11 10.
Definition SwimmingCaloriesWeightMultiplier : float64 := of_int 2.

Module Swimming.

Record t : Type := Build {
  Training : Training.t;
  LengthPool : Z;
  CountPool : Z
}.

(** Promoted from the embedded [Training]. *)
Definition distance (swim : t) : float64 :=
  Training.distance (Training swim).

Definition meanSpeed (swim : t) : float64 :=
  if (LengthPool swim <=? 0)%Z || (CountPool swim <=? 0)%Z
     || (Time.Hours (Training.Duration (Training swim)) == zero)
  then zero
  else of_int (LengthPool swim) * of_int (CountPool swim) / MInKm
       / Time.Hours (Training.Duration (Training swim)).

Definition Calories (swim : t) : float64 :=
  if (Training.Weight (Training swim) <=? zero) || (meanSpeed swim == zero)
  then zero
  else (meanSpeed swim + SwimmingCaloriesMeanSpeedShift)
       * SwimmingCaloriesWeightMultiplier
       * Training.Weight (Training swim)
       * Time.Hours (Training.Duration (Training swim)).

Definition TrainingInfo (swim : t) : InfoMessage.t :=
  InfoMessage.Build
    (Training.TrainingType (Training swim))
    (Training.Duration (Training swim))
    (distance swim) (meanSpeed swim) (Calories swim).

End Swimming.

(** A workout of one of the three kinds, with the method each selector
    resolves to on a value of that kind: [distance] is always the one
    promoted from [Training], [meanSpeed] is [Swimming]'s own on a
    [Swimming] and the promoted one otherwise, [Calories] is the kind's
    own. *)
Inductive Workout : Type :=
| OfRunning (run : Running.t)
| OfWalking (walk : Walking.t)
| OfSwimming (swim : Swimming.t).

Definition base (w : Workout) : Training.t :=
  match w with
  | OfRunning run => Running.Training run
  | OfWalking walk => Walking.Training walk
  | OfSwimming swim => Swimming.Training swim
  end.

Definition distance (w : Workout) : float64 := Training.distance (base w).

Definition meanSpeed (w : Workout) : float64 :=
  match w with
  | OfRunning run => Running.meanSpeed run
  | OfWalking walk => Walking.meanSpeed walk
  | OfSwimming swim => Swimming.meanSpeed swim
  end.

Definition calories (w : Workout) : float64 :=
  match w with
  | OfRunning run => Running.Calories run
  | OfWalking walk => Walking.Calories walk
  | OfSwimming swim => Swimming.Calories swim
  end.

#[global] Instance Running_CaloriesCalculator : CaloriesCalculator Running.t :=
  {| Calories := Running.Calories; TrainingInfo := Running.TrainingInfo |}.

#[global] Instance Walking_CaloriesCalculator : CaloriesCalculator Walking.t :=
  {| Calories := Walking.Calories; TrainingInfo := Walking.TrainingInfo |}.

#[global] Instance Swimming_CaloriesCalculator : CaloriesCalculator Swimming.t :=
  {| Calories := Swimming.Calories; TrainingInfo := Swimming.TrainingInfo |}.

(** [fmt.Sprint(infoMsg)]: the operand has a [String] method, which
    [fmt] calls. *)
Definition Sprint (infoMsg : InfoMessage.t) : string :=
  InfoMessage.String infoMsg.

Definition ReadData {T : Type} `{CaloriesCalculator T} (training : T)
  : string :=
  let spentCalories := Calories training in
  let infoMsg := TrainingInfo training in
  let infoMsg := InfoMessage.set_Calories infoMsg spentCalories in
  Sprint infoMsg.

(** The three workouts of [main]. *)
Definition swimTraining : Swimming.t :=
  Swimming.Build
    (Training.Build "Плавание" 2000 SwimmingLenStep
       (90 * Time.Minute)%Z (of_int 85))
    50 5.

Definition walkTraining : Walking.t :=
  Walking.Build
    (Training.Build "Ходьба" 20000 LenStepConst
       (3 * Time.Hour + 45 * Time.Minute)%Z (of_int 85))
    (of_int 185).

Definition runTraining : Running.t :=
  Running.Build
    (Training.Build "Бег" 5000 LenStepConst
       (30 * Time.Minute)%Z (of_int 85)).

Definition main (out : Stdout) : Stdout :=
  let out := Println (ReadData swimTraining) out in
  let out := Println (ReadData walkTraining) out in
  Println (ReadData runTraining) out.

End MainGo.

(* ================================================================= *)
(** ** [src/unnamed/part_000] *)

Module Part000.

Local Open Scope f64_scope.

(** Constants shared by the computations. *)
Definition metersInKm : float64 := of_int 1000.
Definition minutesInHour : float64 := of_int 60.
Definition defaultStepLength : float64 := of_decimal 65 100.
Definition cmInMeter : float64 := of_int 100.
Definition caloriesSpeedMultiplier : float64 := of_int 18.
Definition caloriesSpeedShift : float64 := of_decimal 179 100.

Definition SwimmingLenStep : float64 := of_decimal 138 100.
Definition SwimmingCaloriesMeanSpeedShift : float64 := of_decimal 11 10.
Definition SwimmingCaloriesWeightMultiplier : float64 := of_int 2.

Module InfoMessage.

Record t : Type := Build {
  Type_ : string;
  Duration : Time.Duration;
  Distance : float64;
  MeanSpeed : float64;
  Calories : float64
}.

Definition String (i : t) : string :=
  ("Тип тренировки: " ++ Type_ i ++ Fmt.nl ++
   "Длительность: " ++ Fmt.verb_f 0 (Time.Minutes (Duration i)) ++
     " мин" ++ Fmt.nl ++
   "Дистанция: " ++ Fmt.verb_f 2 (Distance i) ++ " км" ++ Fmt.nl ++
   "Ср. скорость: " ++ Fmt.verb_f 2 (MeanSpeed i) ++ " км/ч" ++ Fmt.nl ++
   "Потрачено ккал: " ++ Fmt.verb_f 2 (Calories i) ++ Fmt.nl)%string.

End InfoMessage.

Module Training.

Record t : Type := Build {
  Type_ : string;
  Action : Z;
  StepLength : float64;
  Duration : Time.Duration;
  Weight : float64
}.

Definition distance (t0 : t) : float64 :=
  if StepLength t0 <=? zero then zero
  else of_int (Action t0) * StepLength t0 / metersInKm.

Definition meanSpeed (t0 : t) : float64 :=
  if (Duration t0 <=? 0)%Z then zero
  else distance t0 / Time.Hours (Duration t0).

Definition Calories (t0 : t) : float64 := zero.

Definition TrainingInfo (t0 : t) : InfoMessage.t :=
  InfoMessage.Build (Type_ t0) (Duration t0)
    (distance t0) (meanSpeed t0) (Calories t0).

End Training.

Module Running.

Record t : Type := Build { Training : Training.t }.

(** Promoted from the embedded [Training]. *)
Definition meanSpeed (r : t) : float64 :=
  Training.meanSpeed (Training r).

Definition Calories (r : t) : float64 :=
  if (Training.Weight (Training r) <=? zero) || (meanSpeed r <=? zero)
  then zero
  else (caloriesSpeedMultiplier * meanSpeed r + caloriesSpeedShift)
       * Training.Weight (Training r) / metersInKm
       * Time.Hours (Training.Duration (Training r)) * minutesInHour.

(** Promoted from the embedded [Training]: the receiver is the
    embedded value, so the methods it calls are [Training]'s. *)
Definition TrainingInfo (r : t) : InfoMessage.t :=
  Training.TrainingInfo (Training r).

End Running.

Module Walking.

Record t : Type := Build { Training : Training.t; Height : float64 }.

(** Promoted from the embedded [Training]. *)
Definition meanSpeed (w : t) : float64 :=
  Training.meanSpeed (Training w).

Definition weightMultiplier : float64 := of_decimal 35 1000.
Definition speedHeightMultiplier : float64 := of_decimal 29 1000.

Definition Calories (w : t) : float64 :=
  if (Training.Weight (Training w) <=? zero)
     || (Height w <=? zero)
     || (meanSpeed w <=? zero)
  then zero
  else
    let speedMetersPerSecond :=
      meanSpeed w * of_int 1000 / of_int 3600 in
    (weightMultiplier * Training.Weight (Training w)
     + Math.Pow2 speedMetersPerSecond / (Height w / cmInMeter)
       * speedHeightMultiplier * Training.Weight (Training w))
    * Time.Hours (Training.Duration (Training w)) * minutesInHour.

(** Promoted from the embedded [Training]. *)
Definition TrainingInfo (w : t) : InfoMessage.t :=
  Training.TrainingInfo (Training w).

End Walking.

Module Swimming.

Record t : Type := Build {
  Training : Training.t;
  PoolLength : Z;
  PoolCount : Z
}.

Definition meanSpeed (s : t) : float64 :=
  if (PoolLength s <=? 0)%Z
     || (Training.Duration (Training s) <=? 0)%Z
  then zero
  else of_int (GoInt.mul (PoolLength s) (PoolCount s)) / metersInKm
       / Time.Hours (Training.Duration (Training s)).

Definition caloriesSpeedShift : float64 := SwimmingCaloriesMeanSpeedShift.
Definition caloriesWeightFactor : float64 :=
  SwimmingCaloriesWeightMultiplier.

Definition Calories (s : t) : float64 :=
  if (Training.Weight (Training s) <=? zero) || (meanSpeed s <=? zero)
  then zero
  else (meanSpeed s + caloriesSpeedShift) * caloriesWeightFactor
       * Training.Weight (Training s)
       * Time.Hours (Training.Duration (Training s)).

(** Promoted from the embedded [Training]; [Swimming] declares no
    [TrainingInfo] of its own. *)
Definition TrainingInfo (s : t) : InfoMessage.t :=
  Training.TrainingInfo (Training s).

End Swimming.

(** A workout of one of the three kinds, with the method each selector
    resolves to on a value of that kind: [distance] is always the one
    promoted from [Training], [meanSpeed] is [Swimming]'s own on a
    [Swimming] and the promoted one otherwise, [Calories] is the kind's
    own. *)
Inductive Workout : Type :=
| OfRunning (r : Running.t)
| OfWalking (w : Walking.t)
| OfSwimming (s : Swimming.t).

Definition base (k : Workout) : Training.t :=
  match k with
  | OfRunning r => Running.Training r
  | OfWalking w => Walking.Training w
  | OfSwimming s => Swimming.Training s
  end.

Definition distance (k : Workout) : float64 := Training.distance (base k).

Definition meanSpeed (k : Workout) : float64 :=
  match k with
  | OfRunning r => Running.meanSpeed r
  | OfWalking w => Walking.meanSpeed w
  | OfSwimming s => Swimming.meanSpeed s
  end.

Definition calories (k : Workout) : float64 :=
  match k with
  | OfRunning r => Running.Calories r
  | OfWalking w => Walking.Calories w
  | OfSwimming s => Swimming.Calories s
  end.

(** The interface [CaloriesCalculator]. *)
Class CaloriesCalculator (T : Type) : Type := {
  Calories : T -> float64;
  TrainingInfo : T -> InfoMessage.t
}.

#[global] Instance Running_CaloriesCalculator : CaloriesCalculator Running.t :=
  {| Calories := Running.Calories; TrainingInfo := Running.TrainingInfo |}.

#[global] Instance Walking_CaloriesCalculator : CaloriesCalculator Walking.t :=
  {| Calories := Walking.Calories; TrainingInfo := Walking.TrainingInfo |}.

#[global] Instance Swimming_CaloriesCalculator : CaloriesCalculator Swimming.t :=
  {| Calories := Swimming.Calories; TrainingInfo := Swimming.TrainingInfo |}.

Definition ReadData {T : Type} `{CaloriesCalculator T} (training : T)
  : string :=
  let info := TrainingInfo training in
  InfoMessage.String info.

(** The three workouts of [main]. *)
Definition swimming : Swimming.t :=
  Swimming.Build
    (Training.Build "Плавание" 2000 SwimmingLenStep
       (90 * Time.Minute)%Z (of_int 85))
    50 5.

Definition walking : Walking.t :=
  Walking.Build
    (Training.Build "Ходьба" 20000 defaultStepLength
       (3 * Time.Hour + 45 * Time.Minute)%Z (of_int 85))
    (of_int 185).

Definition running : Running.t :=
  Running.Build
    (Training.Build "Бег" 5000 defaultStepLength
       (30 * Time.Minute)%Z (of_int 85)).

Definition main (out : Stdout) : Stdout :=
  let out := Println (ReadData swimming) out in
  let out := Println (ReadData walking) out in
  Println (ReadData running) out.

End Part000.


(* ================================================================= *)
(** ** The specification's formulas and the inputs the properties use *)

Module Spec.

Local Open Scope f64_scope.




(** Text made of the given lines, each ended by a newline. *)
Fixpoint lines (l : list string) : string :=
  match l with
  | [] => EmptyString
  | x :: r => (x ++ Fmt.nl ++ lines r)%string
  end.

Local Open Scope Z_scope.

(** The pool product of a [part_000] swim is an [int] that is not
    negative: the crossing count is not negative and the product of
    length and count does not overflow. *)
Definition pool_in_range (k : Part000.Workout) : Prop :=
  match k with
  | Part000.OfSwimming s =>
      0 <= Part000.Swimming.PoolCount s /\
      Part000.Swimming.PoolLength s * Part000.Swimming.PoolCount s
        <= GoInt.max_int
  | _ => True
  end.

(** Each metric is zero when a quantity its own guard tests is not
    positive ([src/main.go]; the duration guard tests [Hours() == 0]). *)
Definition MainGo_zero_when_guarded (w : MainGo.Workout) : Prop :=
  let train := MainGo.base w in
  ((MainGo.Training.LenStep train <=? zero)%f64 = true ->
     MainGo.distance w = zero) /\
  (MainGo.Training.Duration train = 0 ->
     MainGo.meanSpeed w = zero /\ MainGo.calories w = zero) /\
  ((MainGo.Training.Weight train <=? zero)%f64 = true ->
     MainGo.calories w = zero) /\
  (forall walk, w = MainGo.OfWalking walk ->
     (MainGo.Walking.Height walk <=? zero)%f64 = true ->
     MainGo.calories w = zero) /\
  (forall swim, w = MainGo.OfSwimming swim ->
     MainGo.Swimming.LengthPool swim <= 0 ->
     MainGo.meanSpeed w = zero /\ MainGo.calories w = zero).

(** The same for [src/unnamed/part_000], whose duration guard tests
    [Duration <= 0]. *)
Definition Part000_zero_when_guarded (k : Part000.Workout) : Prop :=
  let t0 := Part000.base k in
  ((Part000.Training.StepLength t0 <=? zero)%f64 = true ->
     Part000.distance k = zero) /\
  (Part000.Training.Duration t0 <= 0 ->
     Part000.meanSpeed k = zero /\ Part000.calories k = zero) /\
  ((Part000.Training.Weight t0 <=? zero)%f64 = true ->
     Part000.calories k = zero) /\
  (forall w, k = Part000.OfWalking w ->
     (Part000.Walking.Height w <=? zero)%f64 = true ->
     Part000.calories k = zero) /\
  (forall s, k = Part000.OfSwimming s ->
     Part000.Swimming.PoolLength s <= 0 ->
     Part000.meanSpeed k = zero /\ Part000.calories k = zero).

End Spec.

Module Inputs.

(** A run of one step backwards: repetition count [-1]. *)
Definition backwards : Part000.Workout :=
  Part000.OfRunning
    (Part000.Running.Build
       (Part000.Training.Build "Бег" (-1) (of_int 1) Time.Hour (of_int 85))).

(** The sample swim with a negative number of pool crossings. *)
Definition crossings_negative : Part000.Workout :=
  Part000.OfSwimming
    (Part000.Swimming.Build
       (Part000.Training.Build "Плавание" 2000 Part000.SwimmingLenStep
          (90 * Time.Minute) (of_int 85))
       50 (-5)).

(** A walk of one step of [2 ^ -540] m in an hour by a walker
    [2 ^ -1074] cm tall: every field is a positive finite number. *)
Definition tiny_walk : Part000.Workout :=
  Part000.OfWalking
    (Part000.Walking.Build
       (Part000.Training.Build "Ходьба" 1 (ldexp 1 (-540)) Time.Hour
          (of_int 85))
       (ldexp 1 (-1074))).

(** One step of 0.65 m with a duration of minus one hour. *)
Definition negative_hour : MainGo.Workout :=
  MainGo.OfRunning
    (MainGo.Running.Build
       (MainGo.Training.Build "Бег" 1 MainGo.LenStepConst (- Time.Hour)
          (of_int 85))).

(** The sample run with its duration negated: minus 30 minutes. *)
Definition negative_run : MainGo.Workout :=
  MainGo.OfRunning
    (MainGo.Running.Build
       (MainGo.Training.Build "Бег" 5000 MainGo.LenStepConst
          (- (30 * Time.Minute)) (of_int 85))).


(** The sample swim with another stroke count and stroke length. *)
Definition other_strokes_main : MainGo.Swimming.t :=
  MainGo.Swimming.Build
    (MainGo.Training.Build "Плавание" 7 (of_int 3)
       (90 * Time.Minute) (of_int 85))
    50 5.

Definition other_strokes_part : Part000.Swimming.t :=
  Part000.Swimming.Build
    (Part000.Training.Build "Плавание" 7 (of_int 3)
       (90 * Time.Minute) (of_int 85))
    50 5.

(** A workout of no steps and no duration. *)
Definition standing_main : MainGo.Workout :=
  MainGo.OfRunning
    (MainGo.Running.Build
       (MainGo.Training.Build "Бег" 0 zero 0 (of_int 85))).

Definition standing_part : Part000.Workout :=
  Part000.OfRunning
    (Part000.Running.Build
       (Part000.Training.Build "Бег" 0 zero 0 (of_int 85))).

End Inputs.

Module Versions.

(** One workout as each program holds it: the five fields of the embedded
    [Training] are the same. *)
Definition same_training (a : MainGo.Training.t) (b : Part000.Training.t)
  : Prop :=
  MainGo.Training.TrainingType a = Part000.Training.Type_ b /\
  MainGo.Training.Action a = Part000.Training.Action b /\
  MainGo.Training.LenStep a = Part000.Training.StepLength b /\
  MainGo.Training.Duration a = Part000.Training.Duration b /\
  MainGo.Training.Weight a = Part000.Training.Weight b.

(** Two [part_000] workouts with the same label, repetition count, step
    length and duration; their weights may differ. *)
Definition same_but_weight (a b : Part000.Training.t) : Prop :=
  Part000.Training.Type_ a = Part000.Training.Type_ b /\
  Part000.Training.Action a = Part000.Training.Action b /\
  Part000.Training.StepLength a = Part000.Training.StepLength b /\
  Part000.Training.Duration a = Part000.Training.Duration b.

End Versions.


(* ================================================================= *)
(** * Properties *)

(* ================================================================= *)
(** ** Signs of [float64] results *)

Module F64Facts.

Lemma NN_not_negative (x : float64) : NN x -> not_negative x.
Proof.
  unfold not_negative, ltb, SFltb, zero.
  destruct x as [s|s| |s m e]; simpl; trivial; intros ->; reflexivity.
Qed.

(** A never-negative value is NaN or [0 <= x]. *)
Lemma not_negative_cases (x : float64) :
  not_negative x <-> is_nan x = true \/ nonneg x.
Proof.
  unfold not_negative, nonneg, ltb, leb, SFltb, SFleb, zero.
  destruct x as [s|s| |s m e]; simpl; try destruct s; simpl;
    intuition congruence.
Qed.

Lemma NN_zero : NN zero.
Proof. reflexivity. Qed.

Lemma sign_is_false_NN (x : float64) : sign_is false x -> NN x.
Proof. destruct x; simpl; auto. Qed.

(** A value that fails the guard [x <= 0] is positive or NaN. *)
Lemma guard_leb_false_NN (x : float64) : leb x zero = false -> NN x.
Proof.
  unfold leb, SFleb, zero.
  destruct x as [s|s| |s m e]; simpl; trivial; destruct s; simpl;
    intuition congruence.
Qed.

(** *** Rounding keeps the sign *)

Lemma shr_1_nonneg (mrs : shr_record) :
  0 <= shr_m mrs -> 0 <= shr_m (shr_1 mrs).
Proof.
  destruct mrs as [m r s]; simpl.
  destruct m as [|p|p]; simpl; try lia; destruct p; simpl; lia.
Qed.

Lemma iter_pos_shr_1_nonneg (p : positive) :
  forall mrs, 0 <= shr_m mrs -> 0 <= shr_m (iter_pos shr_1 p mrs).
Proof.
  induction p as [p IH|p IH|]; intros mrs H; simpl.
  - apply IH, IH, shr_1_nonneg, H.
  - apply IH, IH, H.
  - apply shr_1_nonneg, H.
Qed.

Lemma shr_nonneg (mrs : shr_record) (e n : Z) :
  0 <= shr_m mrs -> 0 <= shr_m (fst (shr mrs e n)).
Proof.
  intros H. unfold shr. destruct n; simpl; trivial.
  apply iter_pos_shr_1_nonneg, H.
Qed.

Lemma shr_record_of_loc_m (m : Z) (l : location) :
  shr_m (shr_record_of_loc m l) = m.
Proof. destruct l as [|[ | | ]]; reflexivity. Qed.

Lemma shr_fexp_nonneg (m e : Z) (l : location) :
  0 <= m -> 0 <= shr_m (fst (shr_fexp prec emax m e l)).
Proof.
  intros H. unfold shr_fexp. apply shr_nonneg.
  rewrite shr_record_of_loc_m. exact H.
Qed.

Lemma round_nearest_even_nonneg (m : Z) (l : location) :
  0 <= m -> 0 <= round_nearest_even m l.
Proof.
  intros H. unfold round_nearest_even.
  destruct l as [|[ | | ]]; try lia. destruct (Z.even m); lia.
Qed.

Lemma binary_round_aux_sign (s : bool) (m e : Z) (l : location) :
  0 <= m -> sign_is s (binary_round_aux prec emax s m e l).
Proof.
  intros H. unfold binary_round_aux.
  pose proof (shr_fexp_nonneg m e l H) as H1.
  destruct (shr_fexp prec emax m e l) as [mrs' e'] eqn:E1. simpl in H1.
  pose proof (shr_fexp_nonneg
                (round_nearest_even (shr_m mrs') (loc_of_shr_record mrs'))
                e' loc_Exact (round_nearest_even_nonneg _ _ H1)) as H2.
  destruct (shr_fexp prec emax _ e' loc_Exact) as [mrs'' e''] eqn:E2.
  simpl in H2.
  destruct (shr_m mrs'') as [|q|q]; simpl; trivial.
  - destruct (e'' <=? _); simpl; reflexivity.
  - lia.
Qed.

Lemma binary_round_sign (s : bool) (m : positive) (e : Z) :
  sign_is s (binary_round prec emax s m e).
Proof.
  unfold binary_round.
  destruct (shl_align m e _) as [mz ez].
  apply binary_round_aux_sign. lia.
Qed.

(** *** The operations on never-negative operands *)

Lemma of_int_NN (n : Z) : 0 <= n -> NN (of_int n).
Proof.
  intros H. unfold of_int, binary_normalize.
  destruct n as [|p|p]; simpl; trivial; [|lia].
  apply sign_is_false_NN, binary_round_sign.
Qed.

Lemma mul_NN (x y : float64) : NN x -> NN y -> NN (x * y)%f64.
Proof.
  unfold mul.
  destruct x as [sx|sx| |sx mx ex]; destruct y as [sy|sy| |sy my ey];
    simpl; trivial; intros; subst; trivial.
  apply sign_is_false_NN, binary_round_aux_sign. lia.
Qed.

Lemma div_NN (x y : float64) : NN x -> NN y -> NN (x / y)%f64.
Proof.
  unfold div.
  destruct x as [sx|sx| |sx mx ex]; destruct y as [sy|sy| |sy my ey];
    simpl; trivial; intros; subst; trivial.
  unfold SFdiv_core_binary.
  set (m' := match _ with Z.pos _ => _ | _ => _ end).
  assert (Hm : 0 <= m').
  { subst m'. destruct (_ - _ - _); try lia. apply Z.shiftl_nonneg. lia. }
  pose proof (Z.div_pos m' (Z.pos my) Hm eq_refl) as Hq.
  unfold Z.div in Hq.
  destruct (Z.div_eucl m' (Z.pos my)) as [q r].
  apply sign_is_false_NN, binary_round_aux_sign, Hq.
Qed.

Lemma add_NN (x y : float64) : NN x -> NN y -> NN (x + y)%f64.
Proof.
  unfold add.
  destruct x as [sx|sx| |sx mx ex]; destruct y as [sy|sy| |sy my ey];
    simpl; trivial; intros; subst; simpl; trivial.
  apply sign_is_false_NN, binary_round_sign.
Qed.

End F64Facts.

Import F64Facts.

Create HintDb f64 discriminated.

#[export] Hint Resolve mul_NN div_NN add_NN of_int_NN NN_zero
  guard_leb_false_NN : f64.

(** A closed constant is never negative by evaluation. *)
#[export] Hint Extern 5 (NN ?c) =>
  (is_ground c; vm_compute; reflexivity) : f64.

(** Splits the disjunction of guards of an [if] that took its else branch. *)
Ltac guards_false :=
  repeat match goal with
         | H : (_ || _)%bool = false |- _ =>
             apply orb_false_elim in H; destruct H
         end.

(** [d.Hours()] and [d.Minutes()] of a duration that is not negative. *)
Lemma Hours_NN (d : Time.Duration) : 0 <= d -> NN (Time.Hours d).
Proof.
  intros H. unfold Time.Hours.
  assert (0 <= Z.quot d Time.Hour) by (apply Z.quot_pos; [exact H | reflexivity]).
  assert (0 <= Z.rem d Time.Hour) by (apply Z.rem_nonneg; [discriminate | exact H]).
  auto with f64.
Qed.

Lemma Hours_zero : Time.Hours 0 = zero.
Proof. reflexivity. Qed.

(* ================================================================= *)
(** ** [src/main.go]: signs and guards *)

Module MainGoFacts.

Import MainGo.

Lemma main_distance_NN (train : Training.t) : NN (Training.distance train).
Proof.
  unfold Training.distance.
  destruct (_ || _)%bool eqn:G; [exact NN_zero|]. guards_false.
  assert (0 <= Training.Action train) by lia.
  unfold MInKm. auto with f64.
Qed.

Lemma main_meanSpeed_NN (train : Training.t) :
  0 <= Training.Duration train -> NN (Training.meanSpeed train).
Proof.
  intros H. unfold Training.meanSpeed.
  destruct (_ == _)%f64; [exact NN_zero|].
  apply div_NN; [apply main_distance_NN | apply Hours_NN, H].
Qed.

Lemma main_Swimming_meanSpeed_NN (swim : Swimming.t) :
  0 <= Training.Duration (Swimming.Training swim) ->
  NN (Swimming.meanSpeed swim).
Proof.
  intros H. unfold Swimming.meanSpeed.
  destruct (_ || _)%bool eqn:G; [exact NN_zero|]. guards_false.
  assert (0 <= Swimming.LengthPool swim) by lia.
  assert (0 <= Swimming.CountPool swim) by lia.
  pose proof (Hours_NN _ H).
  unfold MInKm. auto with f64.
Qed.

Lemma main_Running_Calories_NN (run : Running.t) :
  0 <= Training.Duration (Running.Training run) ->
  NN (Running.Calories run).
Proof.
  intros H. unfold Running.Calories.
  destruct (_ || _)%bool eqn:G; [exact NN_zero|]. guards_false.
  pose proof (Hours_NN _ H).
  pose proof (main_meanSpeed_NN _ H).
  unfold Running.meanSpeed, CaloriesMeanSpeedMultiplier,
    CaloriesMeanSpeedShift, MInKm, MinInHours.
  auto 10 with f64.
Qed.

Lemma main_Walking_Calories_NN (walk : Walking.t) :
  0 <= Training.Duration (Walking.Training walk) ->
  NN (Walking.Calories walk).
Proof.
  intros H. unfold Walking.Calories.
  destruct (_ || _)%bool eqn:G; [exact NN_zero|]. guards_false.
  pose proof (Hours_NN _ H).
  pose proof (main_meanSpeed_NN _ H).
  unfold Walking.meanSpeed, Math.Pow2, CaloriesWeightMultiplier,
    CaloriesSpeedHeightMultiplier, KmHInMsec, CmInM, MinInHours.
  auto 12 with f64.
Qed.

Lemma main_Swimming_Calories_NN (swim : Swimming.t) :
  0 <= Training.Duration (Swimming.Training swim) ->
  NN (Swimming.Calories swim).
Proof.
  intros H. unfold Swimming.Calories.
  destruct (_ || _)%bool eqn:G; [exact NN_zero|]. guards_false.
  pose proof (Hours_NN _ H).
  pose proof (main_Swimming_meanSpeed_NN _ H).
  unfold SwimmingCaloriesMeanSpeedShift, SwimmingCaloriesWeightMultiplier.
  auto 10 with f64.
Qed.

End MainGoFacts.

(* ================================================================= *)
(** ** [src/unnamed/part_000]: signs and guards *)

Module Part000Facts.

Import Part000.

Lemma part_distance_NN (t0 : Training.t) :
  0 <= Training.Action t0 -> NN (Training.distance t0).
Proof.
  intros H. unfold Training.distance.
  destruct (_ <=? _)%f64 eqn:G; [exact NN_zero|].
  unfold metersInKm. auto with f64.
Qed.

Lemma part_meanSpeed_NN (t0 : Training.t) :
  0 <= Training.Action t0 -> NN (Training.meanSpeed t0).
Proof.
  intros H. unfold Training.meanSpeed.
  destruct (Z.leb_spec (Training.Duration t0) 0); [exact NN_zero|].
  apply div_NN; [apply part_distance_NN, H | apply Hours_NN; lia].
Qed.

(** A positive mean speed comes from a positive duration. *)
Lemma part_meanSpeed_guard (t0 : Training.t) :
  (Training.meanSpeed t0 <=? zero)%f64 = false -> 0 < Training.Duration t0.
Proof.
  unfold Training.meanSpeed.
  destruct (Z.leb_spec (Training.Duration t0) 0); [discriminate | trivial].
Qed.

Lemma part_Swimming_meanSpeed_guard (s : Swimming.t) :
  (Swimming.meanSpeed s <=? zero)%f64 = false ->
  0 < Training.Duration (Swimming.Training s).
Proof.
  unfold Swimming.meanSpeed.
  destruct (_ || _)%bool eqn:G; [discriminate|]. guards_false. lia.
Qed.

(** Without overflow the [int] product is the product. *)
Lemma GoInt_mul_small (a b : Z) :
  0 <= a * b <= GoInt.max_int -> GoInt.mul a b = a * b.
Proof.
  unfold GoInt.mul, GoInt.wrap, GoInt.max_int. intros H.
  rewrite Z.mod_small; lia.
Qed.

Lemma part_Swimming_meanSpeed_NN (s : Swimming.t) :
  0 <= Swimming.PoolCount s ->
  Swimming.PoolLength s * Swimming.PoolCount s <= GoInt.max_int ->
  NN (Swimming.meanSpeed s).
Proof.
  intros Hc Hm. unfold Swimming.meanSpeed.
  destruct (_ || _)%bool eqn:G; [exact NN_zero|]. guards_false.
  assert (Hp : 0 <= Swimming.PoolLength s * Swimming.PoolCount s) by nia.
  rewrite GoInt_mul_small by lia.
  assert (NN (Time.Hours (Training.Duration (Swimming.Training s))))
    by (apply Hours_NN; lia).
  unfold metersInKm. auto with f64.
Qed.

Lemma part_Running_Calories_NN (r : Running.t) : NN (Running.Calories r).
Proof.
  unfold Running.Calories.
  destruct (_ || _)%bool eqn:G; [exact NN_zero|]. guards_false.
  assert (NN (Time.Hours (Training.Duration (Running.Training r))))
    by (apply Hours_NN; apply Z.lt_le_incl, part_meanSpeed_guard; assumption).
  unfold caloriesSpeedMultiplier, caloriesSpeedShift, metersInKm,
    minutesInHour.
  auto 10 with f64.
Qed.

Lemma part_Walking_Calories_NN (w : Walking.t) : NN (Walking.Calories w).
Proof.
  unfold Walking.Calories.
  destruct (_ || _)%bool eqn:G; [exact NN_zero|]. guards_false.
  assert (NN (Time.Hours (Training.Duration (Walking.Training w))))
    by (apply Hours_NN; apply Z.lt_le_incl, part_meanSpeed_guard; assumption).
  unfold Math.Pow2, Walking.weightMultiplier, Walking.speedHeightMultiplier,
    cmInMeter, minutesInHour.
  auto 12 with f64.
Qed.

Lemma part_Swimming_Calories_NN (s : Swimming.t) : NN (Swimming.Calories s).
Proof.
  unfold Swimming.Calories.
  destruct (_ || _)%bool eqn:G; [exact NN_zero|]. guards_false.
  assert (NN (Time.Hours (Training.Duration (Swimming.Training s))))
    by (apply Hours_NN;
        apply Z.lt_le_incl, part_Swimming_meanSpeed_guard; assumption).
  unfold Swimming.caloriesSpeedShift, Swimming.caloriesWeightFactor,
    SwimmingCaloriesMeanSpeedShift, SwimmingCaloriesWeightMultiplier.
  auto 10 with f64.
Qed.

End Part000Facts.

(* ================================================================= *)
(** ** The compiled-in samples *)

Local Open Scope string_scope.

(** What [src/main.go] prints. *)
Lemma MainGo_main_transcript :
  MainGo.main "" =
  Spec.lines
    [ "Тип тренировки: Плавание"; "Длительность: 90 мин";
      "Дистанция: 2.76 км"; "Ср. скорость: 0.17 км/ч";
      "Потрачено ккал: 323.00"; "";
      "Тип тренировки: Ходьба"; "Длительность: 225 мин";
      "Дистанция: 13.00 км"; "Ср. скорость: 3.47 км/ч";
      "Потрачено ккал: 947.82"; "";
      "Тип тренировки: Бег"; "Длительность: 30 мин";
      "Дистанция: 3.25 км"; "Ср. скорость: 6.50 км/ч";
      "Потрачено ккал: 302.91"; "" ].
Proof. vm_compute. reflexivity. Qed.

(** What [src/unnamed/part_000] prints. *)
Lemma Part000_main_transcript :
  Part000.main "" =
  Spec.lines
    [ "Тип тренировки: Плавание"; "Длительность: 90 мин";
      "Дистанция: 2.76 км"; "Ср. скорость: 1.84 км/ч";
      "Потрачено ккал: 0.00"; "";
      "Тип тренировки: Ходьба"; "Длительность: 225 мин";
      "Дистанция: 13.00 км"; "Ср. скорость: 3.47 км/ч";
      "Потрачено ккал: 0.00"; "";
      "Тип тренировки: Бег"; "Длительность: 30 мин";
      "Дистанция: 3.25 км"; "Ср. скорость: 6.50 км/ч";
      "Потрачено ккал: 0.00"; "" ].
Proof. vm_compute. reflexivity. Qed.

(** The two programs are given the same three workouts. *)
Lemma samples_agree :
  let same (a : MainGo.Training.t) (b : Part000.Training.t) :=
    MainGo.Training.TrainingType a = Part000.Training.Type_ b /\
    MainGo.Training.Action a = Part000.Training.Action b /\
    MainGo.Training.LenStep a = Part000.Training.StepLength b /\
    MainGo.Training.Duration a = Part000.Training.Duration b /\
    MainGo.Training.Weight a = Part000.Training.Weight b in
  same (MainGo.Swimming.Training MainGo.swimTraining)
       (Part000.Swimming.Training Part000.swimming) /\
  MainGo.Swimming.LengthPool MainGo.swimTraining =
    Part000.Swimming.PoolLength Part000.swimming /\
  MainGo.Swimming.CountPool MainGo.swimTraining =
    Part000.Swimming.PoolCount Part000.swimming /\
  same (MainGo.Walking.Training MainGo.walkTraining)
       (Part000.Walking.Training Part000.walking) /\
  MainGo.Walking.Height MainGo.walkTraining =
    Part000.Walking.Height Part000.walking /\
  same (MainGo.Running.Training MainGo.runTraining)
       (Part000.Running.Training Part000.running).
Proof. vm_compute. repeat split. Qed.

(** C1, evaluated on the code: on the three compiled-in workouts the two
    programs do not print the same text.  [src/main.go] prints the calories
    of each kind (323.00, 947.82, 302.91) and the swimming speed from the
    pool (0.17 km/h); [src/unnamed/part_000] prints 0.00 calories for all
    three and the swimming speed from the stroke count (1.84 km/h). *)
Theorem main_outputs_differ :
  MainGo.ReadData MainGo.swimTraining <> Part000.ReadData Part000.swimming /\
  MainGo.ReadData MainGo.walkTraining <> Part000.ReadData Part000.walking /\
  MainGo.ReadData MainGo.runTraining <> Part000.ReadData Part000.running /\
  MainGo.main "" <> Part000.main "".
Proof. repeat split; vm_compute; discriminate. Qed.

(* ================================================================= *)
(** ** Signs of the metrics *)

Local Open Scope Z_scope.

Lemma MainGo_guards (w : MainGo.Workout) : Spec.MainGo_zero_when_guarded w.
Proof.
  unfold Spec.MainGo_zero_when_guarded; cbv zeta. repeat split.
  - intros H. unfold MainGo.distance, MainGo.Training.distance.
    rewrite H, orb_true_r. reflexivity.
  - destruct w as [run|walk|swim]; simpl in *;
      unfold MainGo.Running.meanSpeed, MainGo.Walking.meanSpeed,
        MainGo.Swimming.meanSpeed, MainGo.Training.meanSpeed;
      rewrite H; rewrite ?orb_true_r; reflexivity.
  - destruct w as [run|walk|swim]; simpl in *;
      unfold MainGo.Running.Calories, MainGo.Walking.Calories,
        MainGo.Swimming.Calories,
        MainGo.Running.meanSpeed, MainGo.Walking.meanSpeed,
        MainGo.Swimming.meanSpeed, MainGo.Training.meanSpeed;
      rewrite H; rewrite ?orb_true_r; reflexivity.
  - intros H. destruct w as [run|walk|swim]; simpl in *;
      unfold MainGo.Running.Calories, MainGo.Walking.Calories,
        MainGo.Swimming.Calories;
      rewrite H; rewrite ?orb_true_r; reflexivity.
  - intros walk -> H. simpl. unfold MainGo.Walking.Calories.
    rewrite H, orb_true_r. reflexivity.
  - subst w. simpl. unfold MainGo.Swimming.meanSpeed.
    apply Z.leb_le in H0. rewrite H0. reflexivity.
  - subst w. simpl.
    unfold MainGo.Swimming.Calories, MainGo.Swimming.meanSpeed.
    apply Z.leb_le in H0. rewrite H0. cbn [orb]. rewrite orb_true_r.
    reflexivity.
Qed.

Lemma Part000_guards (k : Part000.Workout) : Spec.Part000_zero_when_guarded k.
Proof.
  unfold Spec.Part000_zero_when_guarded; cbv zeta. repeat split.
  - intros H. unfold Part000.distance, Part000.Training.distance.
    rewrite H. reflexivity.
  - apply Z.leb_le in H.
    destruct k as [r|w|s]; simpl in *;
      unfold Part000.Running.meanSpeed, Part000.Walking.meanSpeed,
        Part000.Swimming.meanSpeed, Part000.Training.meanSpeed;
      rewrite H; rewrite ?orb_true_r; reflexivity.
  - apply Z.leb_le in H.
    destruct k as [r|w|s]; simpl in *;
      unfold Part000.Running.Calories, Part000.Walking.Calories,
        Part000.Swimming.Calories,
        Part000.Running.meanSpeed, Part000.Walking.meanSpeed,
        Part000.Swimming.meanSpeed, Part000.Training.meanSpeed;
      rewrite H; rewrite ?orb_true_r; reflexivity.
  - intros H. destruct k as [r|w|s]; simpl in *;
      unfold Part000.Running.Calories, Part000.Walking.Calories,
        Part000.Swimming.Calories;
      rewrite H; rewrite ?orb_true_r; reflexivity.
  - intros w -> H. simpl. unfold Part000.Walking.Calories.
    rewrite H, orb_true_r. reflexivity.
  - subst k. simpl. unfold Part000.Swimming.meanSpeed.
    apply Z.leb_le in H0. rewrite H0. reflexivity.
  - subst k. simpl.
    unfold Part000.Swimming.Calories, Part000.Swimming.meanSpeed.
    apply Z.leb_le in H0. rewrite H0. cbn [orb]. rewrite orb_true_r.
    reflexivity.
Qed.

(** C2 as stated fails: a metric can be negative, and it can be NaN.
    In [part_000] a repetition count of [-1] gives the distance -0.001 km
    and a crossing count of [-5] gives the swimming speed -0.17 km/h; in
    [main.go] a duration of minus one hour gives the speed -0.00065 km/h and
    -9.07 calories; and in [part_000] a walk whose fields are all positive
    and finite, but tiny, has NaN calories (the squared speed and the height
    in metres both round to zero, and 0/0 is NaN). *)
Lemma metrics_can_be_negative :
  (Part000.distance Inputs.backwards <? zero)%f64 = true /\
  (Part000.meanSpeed Inputs.crossings_negative <? zero)%f64 = true /\
  (MainGo.meanSpeed Inputs.negative_hour <? zero)%f64 = true /\
  (MainGo.calories Inputs.negative_hour <? zero)%f64 = true /\
  is_nan (Part000.calories Inputs.tiny_walk) = true.
Proof. repeat split; vm_compute; reflexivity. Qed.

(** C2, amended: for every workout whose duration is not negative
    ([main.go]), respectively whose repetition count is not negative and
    whose pool product is a non-negative [int] ([part_000]), the distance,
    the mean speed and the calories are never negative ([x < 0] is false:
    each is [>= 0] or NaN), and each is zero when a quantity its own guard
    tests (step length; duration; weight; height; pool length) is not
    positive. *)
Theorem metrics_never_negative (w : MainGo.Workout) (k : Part000.Workout) :
  0 <= MainGo.Training.Duration (MainGo.base w) ->
  0 <= Part000.Training.Action (Part000.base k) ->
  Spec.pool_in_range k ->
  (not_negative (MainGo.distance w) /\
   not_negative (MainGo.meanSpeed w) /\
   not_negative (MainGo.calories w) /\
   Spec.MainGo_zero_when_guarded w) /\
  (not_negative (Part000.distance k) /\
   not_negative (Part000.meanSpeed k) /\
   not_negative (Part000.calories k) /\
   Spec.Part000_zero_when_guarded k).
Proof.
  intros Hd Ha Hp. split.
  - refine (conj _ (conj _ (conj _ (MainGo_guards w))));
      apply NN_not_negative.
    + apply MainGoFacts.main_distance_NN.
    + destruct w as [run|walk|swim]; simpl in *.
      * apply MainGoFacts.main_meanSpeed_NN, Hd.
      * apply MainGoFacts.main_meanSpeed_NN, Hd.
      * apply MainGoFacts.main_Swimming_meanSpeed_NN, Hd.
    + destruct w as [run|walk|swim]; simpl in *.
      * apply MainGoFacts.main_Running_Calories_NN, Hd.
      * apply MainGoFacts.main_Walking_Calories_NN, Hd.
      * apply MainGoFacts.main_Swimming_Calories_NN, Hd.
  - refine (conj _ (conj _ (conj _ (Part000_guards k))));
      apply NN_not_negative.
    + apply Part000Facts.part_distance_NN, Ha.
    + destruct k as [r|wk|s]; simpl in *.
      * apply Part000Facts.part_meanSpeed_NN, Ha.
      * apply Part000Facts.part_meanSpeed_NN, Ha.
      * apply Part000Facts.part_Swimming_meanSpeed_NN; apply Hp.
    + destruct k as [r|wk|s]; simpl.
      * apply Part000Facts.part_Running_Calories_NN.
      * apply Part000Facts.part_Walking_Calories_NN.
      * apply Part000Facts.part_Swimming_Calories_NN.
Qed.

Lemma metrics_never_negative_witness :
  let w := MainGo.OfSwimming MainGo.swimTraining in
  let k := Part000.OfSwimming Part000.swimming in
  0 <= MainGo.Training.Duration (MainGo.base w) /\
  0 <= Part000.Training.Action (Part000.base k) /\
  Spec.pool_in_range k /\
  (not_negative (MainGo.distance w) /\
   not_negative (MainGo.meanSpeed w) /\
   not_negative (MainGo.calories w) /\
   Spec.MainGo_zero_when_guarded w) /\
  (not_negative (Part000.distance k) /\
   not_negative (Part000.meanSpeed k) /\
   not_negative (Part000.calories k) /\
   Spec.Part000_zero_when_guarded k).
Proof.
  intros w k.
  assert (H1 : 0 <= MainGo.Training.Duration (MainGo.base w))
    by (vm_compute; discriminate).
  assert (H2 : 0 <= Part000.Training.Action (Part000.base k))
    by (vm_compute; discriminate).
  assert (H3 : Spec.pool_in_range k)
    by (split; vm_compute; discriminate).
  exact (conj H1 (conj H2 (conj H3 (metrics_never_negative w k H1 H2 H3)))).
Defined.

(* ================================================================= *)
(** ** Guards *)

(** C3 as stated fails in [src/main.go]: the sample run with its duration
    negated (minus 30 minutes) has the mean speed -6.5 km/h, not zero; the
    guard there tests [Hours() == 0], so the division is carried out. *)
Lemma negative_duration_is_divided :
  MainGo.Training.Duration (MainGo.base Inputs.negative_run) <= 0 /\
  (MainGo.meanSpeed Inputs.negative_run == zero)%f64 = false /\
  Fmt.verb_f 2 (MainGo.meanSpeed Inputs.negative_run) = "-6.50"%string.
Proof. repeat split; vm_compute; discriminate. Qed.

(** C3, amended: for every workout, a step length [<= 0] gives the distance
    zero in both programs; a duration [<= 0] gives the mean speed zero in
    [part_000], and a duration of zero gives the mean speed zero in
    [main.go] (a negative one is divided through).  The zero is the guard's
    own result, returned before any division; no input raises an error
    (the functions are total). *)
Theorem guards_yield_zero (w : MainGo.Workout) (k : Part000.Workout) :
  ((MainGo.Training.LenStep (MainGo.base w) <=? zero)%f64 = true ->
     MainGo.distance w = zero) /\
  (MainGo.Training.Duration (MainGo.base w) = 0 ->
     MainGo.meanSpeed w = zero) /\
  ((Part000.Training.StepLength (Part000.base k) <=? zero)%f64 = true ->
     Part000.distance k = zero) /\
  (Part000.Training.Duration (Part000.base k) <= 0 ->
     Part000.meanSpeed k = zero).
Proof.
  destruct (MainGo_guards w) as (A1 & A2 & _).
  destruct (Part000_guards k) as (B1 & B2 & _).
  repeat split; auto.
  - intros H. apply A2, H.
  - intros H. apply B2, H.
Qed.

Lemma guards_yield_zero_witness :
  MainGo.distance Inputs.standing_main = zero /\
  MainGo.meanSpeed Inputs.standing_main = zero /\
  Part000.distance Inputs.standing_part = zero /\
  Part000.meanSpeed Inputs.standing_part = zero.
Proof.
  destruct (guards_yield_zero Inputs.standing_main Inputs.standing_part)
    as (H1 & H2 & H3 & H4).
  split; [apply H1; reflexivity|].
  split; [apply H2; reflexivity|].
  split; [apply H3; reflexivity|].
  apply H4. vm_compute. discriminate.
Defined.

(* ================================================================= *)
(** ** The swimming and the walking sample *)

(** C4 as stated fails: the swimming sample's mean speed is not within
    0.01 of 1.6667 and its calories are not within 0.01 of 706.25, in
    either program. *)
Lemma swimming_sample_not_as_stated :
  within (MainGo.Swimming.meanSpeed MainGo.swimTraining)
    16667 10000 1 100 = false /\
  within (MainGo.Swimming.Calories MainGo.swimTraining)
    70625 100 1 100 = false /\
  within (Part000.Swimming.meanSpeed Part000.swimming)
    16667 10000 1 100 = false /\
  within (Part000.Swimming.Calories Part000.swimming)
    70625 100 1 100 = false.
Proof. repeat split; vm_compute; reflexivity. Qed.

(** C4, amended: for the swimming sample both programs compute the mean
    speed [50 * 5 / 1000 / 1.5], which is 0.1667 km/h, and the calories
    [(meanSpeed + 1.1) * 2 * 85 * 1.5], which is 323.00; [main.go] renders
    them as 0.17 and 323.00 in the swimming block. *)
Theorem swimming_sample :
  let speed := (of_int 50 * of_int 5 / of_int 1000 / of_decimal 15 10)%f64 in
  let kcal :=
    ((speed + of_decimal 11 10) * of_int 2 * of_int 85
     * of_decimal 15 10)%f64 in
  MainGo.Swimming.meanSpeed MainGo.swimTraining = speed /\
  MainGo.Swimming.Calories MainGo.swimTraining = kcal /\
  Part000.Swimming.meanSpeed Part000.swimming = speed /\
  Part000.Swimming.Calories Part000.swimming = kcal /\
  within speed 1667 10000 1 10000 = true /\
  within kcal 323 1 1 100 = true /\
  MainGo.ReadData MainGo.swimTraining =
  Spec.lines
    [ "Тип тренировки: Плавание"; "Длительность: 90 мин";
      "Дистанция: 2.76 км"; "Ср. скорость: 0.17 км/ч";
      "Потрачено ккал: 323.00" ]%string.
Proof. repeat split; vm_compute; reflexivity. Qed.

(** C5 as stated fails: the walking sample's calories are not within 0.01
    of 152.04, in either program. *)
Lemma walking_sample_not_as_stated :
  within (MainGo.Walking.Calories MainGo.walkTraining)
    15204 100 1 100 = false /\
  within (Part000.Walking.Calories Part000.walking)
    15204 100 1 100 = false.
Proof. split; vm_compute; reflexivity. Qed.

(** C5, amended: for the walking sample both programs compute the distance
    13 km and the mean speed 13 / 3.75 = 3.4667 km/h; the calories of the
    walking formula are 947.38 in [part_000] (speed times 1000 / 3600) and
    947.82 in [main.go] (speed times 0.278), each within 0.01. *)
Theorem walking_sample :
  MainGo.distance (MainGo.OfWalking MainGo.walkTraining) = of_int 13 /\
  Part000.distance (Part000.OfWalking Part000.walking) = of_int 13 /\
  MainGo.Walking.meanSpeed MainGo.walkTraining
    = (of_int 13 / of_decimal 375 100)%f64 /\
  Part000.Walking.meanSpeed Part000.walking
    = (of_int 13 / of_decimal 375 100)%f64 /\
  within (of_int 13 / of_decimal 375 100)%f64 34667 10000 1 10000 = true /\
  within (Part000.Walking.Calories Part000.walking) 94738 100 1 100 = true /\
  within (MainGo.Walking.Calories MainGo.walkTraining) 94782 100 1 100
    = true.
Proof. repeat split; vm_compute; reflexivity. Qed.

(* ================================================================= *)
(** ** The walking formula *)





(* ================================================================= *)
(** ** Swimming's mean speed *)

(** C7: two Swimming records that agree on pool length, crossing count and
    duration have the same mean speed, whatever their stroke counts and
    stroke lengths (and weights and labels); in both programs. *)
Theorem swimming_meanSpeed_only_pool_and_duration
  (a1 a2 : MainGo.Swimming.t) (b1 b2 : Part000.Swimming.t) :
  MainGo.Swimming.LengthPool a1 = MainGo.Swimming.LengthPool a2 ->
  MainGo.Swimming.CountPool a1 = MainGo.Swimming.CountPool a2 ->
  MainGo.Training.Duration (MainGo.Swimming.Training a1)
    = MainGo.Training.Duration (MainGo.Swimming.Training a2) ->
  Part000.Swimming.PoolLength b1 = Part000.Swimming.PoolLength b2 ->
  Part000.Swimming.PoolCount b1 = Part000.Swimming.PoolCount b2 ->
  Part000.Training.Duration (Part000.Swimming.Training b1)
    = Part000.Training.Duration (Part000.Swimming.Training b2) ->
  MainGo.Swimming.meanSpeed a1 = MainGo.Swimming.meanSpeed a2 /\
  Part000.Swimming.meanSpeed b1 = Part000.Swimming.meanSpeed b2.
Proof.
  intros HL HC HD HL' HC' HD'.
  unfold MainGo.Swimming.meanSpeed, Part000.Swimming.meanSpeed.
  rewrite HL, HC, HD, HL', HC', HD'. split; reflexivity.
Qed.

Lemma swimming_meanSpeed_only_pool_and_duration_witness :
  MainGo.Training.Action (MainGo.Swimming.Training MainGo.swimTraining)
    <> MainGo.Training.Action
         (MainGo.Swimming.Training Inputs.other_strokes_main) /\
  MainGo.Swimming.meanSpeed MainGo.swimTraining
    = MainGo.Swimming.meanSpeed Inputs.other_strokes_main /\
  Part000.Swimming.meanSpeed Part000.swimming
    = Part000.Swimming.meanSpeed Inputs.other_strokes_part.
Proof.
  split; [vm_compute; discriminate|].
  apply (swimming_meanSpeed_only_pool_and_duration
           MainGo.swimTraining Inputs.other_strokes_main
           Part000.swimming Inputs.other_strokes_part); reflexivity.
Defined.

(* ================================================================= *)
(** ** Summaries *)

Local Open Scope string_scope.

Lemma string_app_assoc (a b c : string) : (a ++ b) ++ c = a ++ (b ++ c).
Proof. induction a as [|x a IH]; simpl; [reflexivity | now rewrite IH]. Qed.

Lemma Println_appends (s : string) (out : Stdout) :
  Println s out = out ++ Println s "".
Proof. reflexivity. Qed.

(** Three prints in a row append their three blocks to the output. *)
Lemma three_prints (a b c : string) (out : Stdout) :
  Println c (Println b (Println a out))
  = out ++ Println c (Println b (Println a "")).
Proof.
  unfold Println. cbn [append]. rewrite !string_app_assoc. reflexivity.
Qed.

Lemma MainGo_main_appends (out : Stdout) :
  MainGo.main out = out ++ MainGo.main "".
Proof. unfold MainGo.main. apply three_prints. Qed.

Lemma Part000_main_appends (out : Stdout) :
  Part000.main out = out ++ Part000.main "".
Proof. unfold Part000.main. apply three_prints. Qed.

(** C8: the summary of a record is a function of the record alone.  Printed
    twice in a row, from any state of the output, the same record appends
    the same bytes twice; so does a second run of [main].  In both
    programs, for every type that implements the interface. *)
Theorem summary_twice_identical
  (T U : Type) `{MainGo.CaloriesCalculator T} `{Part000.CaloriesCalculator U}
  (a : T) (b : U) (out : Stdout) :
  Println (MainGo.ReadData a) (Println (MainGo.ReadData a) out)
    = out ++ Println (MainGo.ReadData a) ""
          ++ Println (MainGo.ReadData a) "" /\
  Println (Part000.ReadData b) (Println (Part000.ReadData b) out)
    = out ++ Println (Part000.ReadData b) ""
          ++ Println (Part000.ReadData b) "" /\
  MainGo.main (MainGo.main out) = out ++ MainGo.main "" ++ MainGo.main "" /\
  Part000.main (Part000.main out)
    = out ++ Part000.main "" ++ Part000.main "".
Proof.
  repeat split.
  - rewrite (Println_appends _ (Println _ out)), (Println_appends _ out).
    apply string_app_assoc.
  - rewrite (Println_appends _ (Println _ out)), (Println_appends _ out).
    apply string_app_assoc.
  - rewrite (MainGo_main_appends (MainGo.main out)), (MainGo_main_appends out).
    apply string_app_assoc.
  - rewrite (Part000_main_appends (Part000.main out)),
      (Part000_main_appends out).
    apply string_app_assoc.
Qed.

(* ================================================================= *)
(** ** Method promotion in [src/unnamed/part_000] *)


(* ================================================================= *)
(** ** [ReadData] in [src/main.go] *)

(** C10: in [main.go], for every value of every type that implements
    [CaloriesCalculator], [ReadData] renders the message [TrainingInfo]
    returned with its [Calories] field replaced by [training.Calories()];
    the other four fields are [TrainingInfo]'s. *)
Theorem ReadData_replaces_only_Calories
  (T : Type) `{MainGo.CaloriesCalculator T} (training : T) :
  exists infoMsg : MainGo.InfoMessage.t,
    MainGo.ReadData training = MainGo.InfoMessage.String infoMsg /\
    MainGo.InfoMessage.Calories infoMsg = MainGo.Calories training /\
    MainGo.InfoMessage.TrainingType infoMsg
      = MainGo.InfoMessage.TrainingType (MainGo.TrainingInfo training) /\
    MainGo.InfoMessage.Duration infoMsg
      = MainGo.InfoMessage.Duration (MainGo.TrainingInfo training) /\
    MainGo.InfoMessage.Distance infoMsg
      = MainGo.InfoMessage.Distance (MainGo.TrainingInfo training) /\
    MainGo.InfoMessage.MeanSpeed infoMsg
      = MainGo.InfoMessage.MeanSpeed (MainGo.TrainingInfo training).
Proof.
  exists (MainGo.InfoMessage.set_Calories
            (MainGo.TrainingInfo training) (MainGo.Calories training)).
  repeat split.
Qed.


(* ================================================================= *)
(** * Further properties of the code *)

Local Open Scope Z_scope.

(* ================================================================= *)
(** ** Magnitudes of [float64] results *)

Module F64Order.

(** A number of [d] binary digits lies in [[2 ^ (d - 1), 2 ^ d)]. *)
Lemma digits2_pos_bounds (p : positive) :
  2 ^ (Z.pos (digits2_pos p) - 1) <= Z.pos p < 2 ^ Z.pos (digits2_pos p).
Proof.
  induction p as [p IH|p IH|]; cbn [digits2_pos].
  - rewrite Pos2Z.inj_succ.
    replace (Z.succ (Z.pos (digits2_pos p)) - 1)
      with (Z.succ (Z.pos (digits2_pos p) - 1)) by lia.
    rewrite !Z.pow_succ_r by lia. lia.
  - rewrite Pos2Z.inj_succ.
    replace (Z.succ (Z.pos (digits2_pos p)) - 1)
      with (Z.succ (Z.pos (digits2_pos p) - 1)) by lia.
    rewrite !Z.pow_succ_r by lia. lia.
  - simpl. lia.
Qed.

(** A number that reaches [2 ^ k] has more than [k] digits. *)
Lemma digits2_pos_above (p : positive) (k : Z) :
  2 ^ k <= Z.pos p -> k < Z.pos (digits2_pos p).
Proof.
  intros H. destruct (Z.lt_ge_cases k 0) as [Hk|Hk]; [lia|].
  pose proof (digits2_pos_bounds p) as [_ Hu].
  apply (Z.pow_lt_mono_r_iff 2); lia.
Qed.

Lemma digits2_pos_mono (p q : positive) :
  (p <= q)%positive -> Z.pos (digits2_pos p) <= Z.pos (digits2_pos q).
Proof.
  intros H. pose proof (digits2_pos_bounds p) as [Hl _].
  assert (Z.pos (digits2_pos p) - 1 < Z.pos (digits2_pos q)); [|lia].
  apply digits2_pos_above. lia.
Qed.

Lemma digits2_pos_iter_xO (p k : positive) :
  Z.pos (digits2_pos (Pos.iter xO p k)) = Z.pos (digits2_pos p) + Z.pos k.
Proof.
  induction k as [|k IH] using Pos.peano_ind.
  - simpl. lia.
  - rewrite Pos.iter_succ. cbn [digits2_pos]. lia.
Qed.

Lemma Zpos_iter_xO (p k : positive) :
  Z.pos (Pos.iter xO p k) = Z.pos p * 2 ^ Z.pos k.
Proof.
  induction k as [|k IH] using Pos.peano_ind.
  - simpl. lia.
  - rewrite Pos.iter_succ, Pos2Z.inj_xO, IH, Pos2Z.inj_succ, Z.pow_succ_r by lia.
    lia.
Qed.

(** *** Right shifts *)

Lemma shr_1_div2 (mrs : shr_record) :
  0 <= shr_m mrs -> shr_m (shr_1 mrs) = shr_m mrs / 2.
Proof.
  destruct mrs as [m r s]; simpl. intros H.
  destruct m as [|p|p]; [reflexivity| |lia].
  destruct p as [p|p|]; cbn [shr_m].
  - rewrite Pos2Z.inj_xI. apply Z.div_unique with 1; lia.
  - rewrite Pos2Z.inj_xO. apply Z.div_unique with 0; lia.
  - reflexivity.
Qed.

Lemma iter_pos_shr_1_div (p : positive) :
  forall mrs, 0 <= shr_m mrs ->
  shr_m (iter_pos shr_1 p mrs) = shr_m mrs / 2 ^ Z.pos p.
Proof.
  induction p as [p IH|p IH|]; intros mrs H; cbn [iter_pos].
  - rewrite IH, IH, shr_1_div2 by auto using iter_pos_shr_1_nonneg, shr_1_nonneg.
    rewrite !Z.div_div by lia.
    f_equal.
    replace (Z.pos p~1) with (Z.pos p + Z.pos p + 1) by lia.
    rewrite !Z.pow_add_r by lia. lia.
  - rewrite IH, IH by auto using iter_pos_shr_1_nonneg.
    rewrite !Z.div_div by lia.
    f_equal.
    replace (Z.pos p~0) with (Z.pos p + Z.pos p) by lia.
    rewrite !Z.pow_add_r by lia. lia.
  - rewrite shr_1_div2 by exact H. reflexivity.
Qed.

(** *** Rounding does not lose the magnitude

    Above half the smallest subnormal, rounding keeps a number away from
    zero: its binary order [digits + exponent] does not decrease. *)

Lemma shr_fexp_order (m : positive) (e : Z) (l : location) :
  -1073 <= Z.pos (digits2_pos m) + e ->
  exists q : positive,
    shr_m (fst (shr_fexp prec emax (Z.pos m) e l)) = Z.pos q /\
    Z.pos (digits2_pos m) + e
      <= Z.pos (digits2_pos q) + snd (shr_fexp prec emax (Z.pos m) e l).
Proof.
  intros H. unfold shr_fexp, shr.
  set (n := fexp prec emax (Zdigits2 (Z.pos m) + e) - e).
  assert (Hn : n <= Z.pos (digits2_pos m) - 1).
  { subst n. unfold fexp, emin, prec, emax. simpl Zdigits2. lia. }
  destruct n as [|p|p]; cbn [fst snd].
  - exists m. rewrite shr_record_of_loc_m. split; [reflexivity | lia].
  - rewrite iter_pos_shr_1_div, shr_record_of_loc_m
      by (rewrite shr_record_of_loc_m; lia).
    pose proof (digits2_pos_bounds m) as [Hl _].
    assert (Hq : 2 ^ (Z.pos (digits2_pos m) - 1 - Z.pos p)
                 <= Z.pos m / 2 ^ Z.pos p).
    { apply Z.div_le_lower_bound; [lia|].
      rewrite <- Z.pow_add_r by lia.
      replace (Z.pos p + (Z.pos (digits2_pos m) - 1 - Z.pos p))
        with (Z.pos (digits2_pos m) - 1) by lia.
      exact Hl. }
    assert (0 < 2 ^ (Z.pos (digits2_pos m) - 1 - Z.pos p))
      by (apply Z.pow_pos_nonneg; lia).
    destruct (Z.pos m / 2 ^ Z.pos p) as [|q|q] eqn:E; try lia.
    exists q. split; [reflexivity|].
    apply digits2_pos_above in Hq. lia.
  - exists m. rewrite shr_record_of_loc_m. split; [reflexivity | lia].
Qed.

Lemma round_nearest_even_pos (q : positive) (l : location) :
  exists q' : positive,
    round_nearest_even (Z.pos q) l = Z.pos q' /\ (q <= q')%positive.
Proof.
  unfold round_nearest_even.
  destruct l as [|[ | | ]]; try (exists q; split; [reflexivity | lia]).
  - destruct (Z.even (Z.pos q)).
    + exists q; split; [reflexivity | lia].
    + exists (q + 1)%positive. split; [reflexivity | lia].
  - exists (q + 1)%positive. split; [reflexivity | lia].
Qed.

Lemma order_ge_weaken (s : bool) (k k' : Z) (x : float64) :
  k' <= k -> order_ge s k x -> order_ge s k' x.
Proof.
  intros Hk. destruct x; simpl; trivial. intros [Hs H]. split; [exact Hs | lia].
Qed.

Lemma binary_round_aux_order (s : bool) (m : positive) (e : Z) (l : location) :
  -1073 <= Z.pos (digits2_pos m) + e ->
  order_ge s (Z.pos (digits2_pos m) + e)
    (binary_round_aux prec emax s (Z.pos m) e l).
Proof.
  intros H. unfold binary_round_aux.
  destruct (shr_fexp_order m e l H) as (q & Eq & Hq).
  destruct (shr_fexp prec emax (Z.pos m) e l) as [mrs' e'].
  cbn [fst snd] in Eq, Hq. rewrite Eq.
  destruct (round_nearest_even_pos q (loc_of_shr_record mrs'))
    as (q' & Eq' & Hq').
  rewrite Eq'.
  apply digits2_pos_mono in Hq'.
  assert (H' : -1073 <= Z.pos (digits2_pos q') + e') by lia.
  destruct (shr_fexp_order q' e' loc_Exact H') as (q'' & Eq'' & Hq'').
  destruct (shr_fexp prec emax (Z.pos q') e' loc_Exact) as [mrs'' e''].
  cbn [fst snd] in Eq'', Hq''. rewrite Eq''.
  destruct (e'' <=? _); cbn [order_ge]; [split; [reflexivity | lia] | reflexivity].
Qed.

Lemma binary_round_order (s : bool) (m : positive) (e : Z) :
  -1073 <= Z.pos (digits2_pos m) + e ->
  order_ge s (Z.pos (digits2_pos m) + e) (binary_round prec emax s m e).
Proof.
  intros H. unfold binary_round, shl_align.
  destruct (_ - e) as [|d|d] eqn:E.
  - apply binary_round_aux_order, H.
  - apply binary_round_aux_order, H.
  - pose proof (digits2_pos_iter_xO m d) as Hd.
    eapply order_ge_weaken; [|apply binary_round_aux_order]; lia.
Qed.

(** [float64(n)] of a non-zero integer is not zero. *)
Lemma of_int_order_pos (n : Z) : 0 < n -> order_ge false 1 (of_int n).
Proof.
  intros H. unfold of_int, binary_normalize.
  destruct n as [|p|p]; try lia.
  eapply order_ge_weaken; [|apply binary_round_order]; lia.
Qed.

Lemma of_int_order_neg (n : Z) : n < 0 -> order_ge true 1 (of_int n).
Proof.
  intros H. unfold of_int, binary_normalize.
  destruct n as [|p|p]; try lia.
  eapply order_ge_weaken; [|apply binary_round_order]; lia.
Qed.

(** *** Sums and quotients *)

Lemma shl_align_order (mx : positive) (ex ez : Z) :
  ez <= ex ->
  Z.pos (digits2_pos (fst (shl_align mx ex ez))) + ez
  = Z.pos (digits2_pos mx) + ex.
Proof.
  intros H. unfold shl_align.
  destruct (ez - ex) as [|d|d] eqn:E; cbn [fst]; try lia.
  rewrite digits2_pos_iter_xO. lia.
Qed.

(** Two numbers of one sign add up to a number of that sign that is at
    least as large as the first. *)
Lemma add_order (s : bool) (k k' : Z) (x y : float64) :
  -1073 <= k -> order_ge s k x -> order_ge s k' y ->
  order_ge s k (x + y)%f64.
Proof.
  intros Hk. unfold add.
  destruct x as [sx|sx| |sx mx ex]; destruct y as [sy|sy| |sy my ey];
    cbn [order_ge]; try tauto.
  - intros Hx Hy. subst sx sy. destruct s; reflexivity.
  - intros [Hs Hx] [Hs' _]. subst sx sy. cbn [SFadd].
    set (ez := Z.min ex ey).
    pose proof (shl_align_order mx ex ez ltac:(lia)) as Hax.
    set (ax := fst (shl_align mx ex ez)) in *.
    set (ay := fst (shl_align my ey ez)).
    assert (Hm : Z.pos (digits2_pos ax) <= Z.pos (digits2_pos (ax + ay)))
      by (apply digits2_pos_mono; lia).
    destruct s; cbn [cond_Zopp Z.opp Z.add binary_normalize];
      (eapply order_ge_weaken; [|apply binary_round_order]; lia).
Qed.

Lemma add_zero_r (s : bool) (k : Z) (x : float64) :
  order_ge s k x -> (x + zero)%f64 = x.
Proof. destruct x; cbn [order_ge]; try tauto; reflexivity. Qed.

Lemma add_zero_l (s : bool) (k : Z) (x : float64) :
  order_ge s k x -> (zero + x)%f64 = x.
Proof. destruct x; cbn [order_ge]; try tauto; reflexivity. Qed.

(** The quotient by a finite number of binary order [o2] has an order of
    at least the difference, as long as that stays in the normal range. *)
Lemma div_order (s sy : bool) (k : Z) (x : float64) (my : positive) (ey : Z) :
  -1021 <= k - (Z.pos (digits2_pos my) + ey) ->
  order_ge s k x ->
  order_ge (xorb s sy) (k - (Z.pos (digits2_pos my) + ey))
    (x / S754_finite sy my ey)%f64.
Proof.
  intros Hk. unfold div.
  destruct x as [sx|sx| |sx mx ex]; cbn [order_ge]; try tauto.
  - intros Hs. subst sx. reflexivity.
  - intros [Hs Hx]. subst sx. cbn [SFdiv]. unfold SFdiv_core_binary.
    cbn [Zdigits2].
    set (d1 := Z.pos (digits2_pos mx)) in *.
    set (d2 := Z.pos (digits2_pos my)) in *.
    set (e' := Z.min (fexp prec emax (d1 + ex - (d2 + ey))) (ex - ey)).
    assert (He' : e' <= d1 + ex - (d2 + ey) - 53 /\ e' <= ex - ey).
    { subst e'. unfold fexp, emin, prec, emax. lia. }
    set (s' := ex - ey - e').
    assert (Hs' : d2 - d1 + 53 <= s') by (subst s'; lia).
    assert (Hd1 : 0 < d1) by (subst d1; lia).
    assert (Hd2 : 0 < d2) by (subst d2; lia).
    set (m' := match s' with Z.pos _ => Z.shiftl (Z.pos mx) s' | Z0 => Z.pos mx
               | Z.neg _ => 0 end).
    assert (Hm' : m' = Z.pos mx * 2 ^ s').
    { subst m'. destruct s' as [|p|p] eqn:Es; try lia.
      rewrite Z.shiftl_mul_pow2 by lia. reflexivity. }
    pose proof (digits2_pos_bounds mx) as [Hlx _].
    pose proof (digits2_pos_bounds my) as [_ Huy].
    fold d1 in Hlx. fold d2 in Huy.
    assert (Hq : 2 ^ (d1 - 1 + s' - d2) <= m' / Z.pos my).
    { apply Z.div_le_lower_bound; [lia|].
      rewrite Hm'.
      apply Z.le_trans with (2 ^ d2 * 2 ^ (d1 - 1 + s' - d2)).
      - apply Z.mul_le_mono_nonneg_r; [apply Z.pow_nonneg|]; lia.
      - rewrite <- Z.pow_add_r by lia.
        replace (d2 + (d1 - 1 + s' - d2)) with (d1 - 1 + s') by lia.
        rewrite Z.pow_add_r by lia.
        apply Z.mul_le_mono_nonneg_r; [apply Z.pow_nonneg|]; lia. }
    assert (0 < 2 ^ (d1 - 1 + s' - d2)) by (apply Z.pow_pos_nonneg; lia).
    unfold Z.div in Hq.
    destruct (Z.div_eucl m' (Z.pos my)) as [q r].
    destruct q as [|q|q]; try lia.
    apply digits2_pos_above in Hq.
    eapply order_ge_weaken; [|apply binary_round_aux_order]; subst s'; lia.
Qed.

(** *** Signs as the comparisons see them *)

Lemma order_ge_positive (k : Z) (x : float64) :
  order_ge false k x ->
  (zero <? x)%f64 = true /\ (x == zero)%f64 = false /\
  (x <=? zero)%f64 = false.
Proof.
  destruct x as [s|s| |s m e]; cbn [order_ge]; try tauto.
  - intros Hs. subst s. repeat split.
  - intros [Hs _]. subst s. repeat split.
Qed.

Lemma order_ge_negative (k : Z) (x : float64) :
  order_ge true k x ->
  (x <? zero)%f64 = true /\ (x == zero)%f64 = false.
Proof.
  destruct x as [s|s| |s m e]; cbn [order_ge]; try tauto.
  - intros Hs. subst s. repeat split.
  - intros [Hs _]. subst s. repeat split.
Qed.

(** *** Whole units plus a fraction

    [d.Hours()] and [d.Minutes()] have the shape
    [float64(d / U) + float64(d % U) / c]. *)
Lemma units_order (U : Z) (mc : positive) (ec : Z) (d : Z) :
  0 < U ->
  0 <= Z.pos (digits2_pos mc) + ec <= 1022 ->
  let x := (of_int (Z.quot d U)
            + of_int (Z.rem d U) / S754_finite false mc ec)%f64 in
  (0 < d -> order_ge false (1 - (Z.pos (digits2_pos mc) + ec)) x) /\
  (d < 0 -> order_ge true (1 - (Z.pos (digits2_pos mc) + ec)) x).
Proof.
  intros HU Hc x. subst x.
  pose proof (Z.quot_rem' d U) as Hqr.
  set (q := Z.quot d U) in *. set (r := Z.rem d U) in *.
  set (o := Z.pos (digits2_pos mc) + ec) in *.
  assert (Ho : 0 < Z.pos (digits2_pos mc)) by lia.
  split; intros Hd.
  - pose proof (Z.rem_bound_pos d U ltac:(lia) HU) as Hr. fold r in Hr.
    assert (Hq : 0 <= q) by nia.
    destruct (Z.eq_dec r 0) as [Er|Er].
    + rewrite Er. change (of_int 0 / S754_finite false mc ec)%f64 with zero.
      assert (0 < q) by nia.
      rewrite (add_zero_r false 1) by (apply of_int_order_pos; lia).
      eapply order_ge_weaken; [|apply of_int_order_pos]; lia.
    + assert (Hy : order_ge (xorb false false) (1 - o)
                     (of_int r / S754_finite false mc ec)%f64).
      { apply div_order; [subst o; lia | apply of_int_order_pos; lia]. }
      cbn [xorb] in Hy.
      destruct (Z.eq_dec q 0) as [Eq|Eq].
      * rewrite Eq. change (of_int 0) with zero.
        rewrite (add_zero_l false (1 - o)) by exact Hy. exact Hy.
      * eapply order_ge_weaken;
          [|apply (add_order false 1 (1 - o));
            [lia | apply of_int_order_pos; lia | exact Hy]].
        lia.
  - pose proof (Z.rem_bound_pos_neg d U HU ltac:(lia)) as Hr. fold r in Hr.
    assert (Hq : q <= 0) by nia.
    destruct (Z.eq_dec r 0) as [Er|Er].
    + rewrite Er. change (of_int 0 / S754_finite false mc ec)%f64 with zero.
      assert (q < 0) by nia.
      rewrite (add_zero_r true 1) by (apply of_int_order_neg; lia).
      eapply order_ge_weaken; [|apply of_int_order_neg]; lia.
    + assert (Hy : order_ge (xorb true false) (1 - o)
                     (of_int r / S754_finite false mc ec)%f64).
      { apply div_order; [subst o; lia | apply of_int_order_neg; lia]. }
      cbn [xorb] in Hy.
      destruct (Z.eq_dec q 0) as [Eq|Eq].
      * rewrite Eq. change (of_int 0) with zero.
        rewrite (add_zero_l true (1 - o)) by exact Hy. exact Hy.
      * eapply order_ge_weaken;
          [|apply (add_order true 1 (1 - o));
            [lia | apply of_int_order_neg; lia | exact Hy]].
        lia.
Qed.

End F64Order.

Import F64Order.

(* ================================================================= *)
(** ** Durations as hours and minutes *)

Lemma Hours_order (d : Time.Duration) :
  (0 < d -> order_ge false (-41) (Time.Hours d)) /\
  (d < 0 -> order_ge true (-41) (Time.Hours d)).
Proof.
  unfold Time.Hours.
  assert (Ec : of_int (60 * 60 * 1000000000)
               = S754_finite false 7372800000000000 (-11))
    by (vm_compute; reflexivity).
  rewrite Ec.
  assert (Ho : 0 <= Z.pos (digits2_pos 7372800000000000) + -11 <= 1022)
    by (vm_compute; split; discriminate).
  pose proof (units_order Time.Hour 7372800000000000 (-11) d eq_refl Ho)
    as H.
  cbv zeta in H.
  replace (1 - (Z.pos (digits2_pos 7372800000000000) + -11)) with (-41) in H
    by (vm_compute; reflexivity).
  exact H.
Qed.

Lemma Minutes_order (d : Time.Duration) :
  (0 < d -> order_ge false (-35) (Time.Minutes d)) /\
  (d < 0 -> order_ge true (-35) (Time.Minutes d)).
Proof.
  unfold Time.Minutes.
  assert (Ec : of_int (60 * 1000000000)
               = S754_finite false 7864320000000000 (-17))
    by (vm_compute; reflexivity).
  rewrite Ec.
  assert (Ho : 0 <= Z.pos (digits2_pos 7864320000000000) + -17 <= 1022)
    by (vm_compute; split; discriminate).
  pose proof (units_order Time.Minute 7864320000000000 (-17) d eq_refl Ho)
    as H.
  cbv zeta in H.
  replace (1 - (Z.pos (digits2_pos 7864320000000000) + -17)) with (-35) in H
    by (vm_compute; reflexivity).
  exact H.
Qed.

(** [d.Hours()] has the sign of [d]: it is positive for a positive
    duration, negative for a negative one, and [== 0] only for the zero
    duration. *)
Lemma Hours_sign (d : Time.Duration) :
  (0 < d -> (zero <? Time.Hours d)%f64 = true) /\
  (d < 0 -> (Time.Hours d <? zero)%f64 = true) /\
  ((Time.Hours d == zero)%f64 = true <-> d = 0).
Proof.
  destruct (Hours_order d) as [Hp Hn].
  split; [|split].
  - intros H. apply (order_ge_positive _ _ (Hp H)).
  - intros H. apply (order_ge_negative _ _ (Hn H)).
  - split.
    + intros E. destruct (Z.lt_trichotomy d 0) as [H|[H|H]]; trivial.
      * destruct (order_ge_negative _ _ (Hn H)) as [_ E']. congruence.
      * destruct (order_ge_positive _ _ (Hp H)) as (_ & E' & _). congruence.
    + intros ->. reflexivity.
Qed.

Lemma Hours_eqb (d : Time.Duration) :
  (Time.Hours d == zero)%f64 = (d =? 0).
Proof.
  destruct (Hours_sign d) as (_ & _ & H).
  destruct (Z.eqb_spec d 0) as [E|E].
  - apply H, E.
  - destruct (Time.Hours d == zero)%f64; [|reflexivity].
    exfalso. apply E, H. reflexivity.
Qed.

(* ================================================================= *)
(** ** The duration guard of [src/main.go] *)

(** X1: in [main.go] the guard [Duration.Hours() == 0] fires for the zero
    duration and for no other: the mean speed of a record is zero when its
    duration is zero, and the quotient [distance / hours] for every other
    duration, negative ones included.  Swimming's own mean speed is the
    pool quotient exactly when pool length and crossing count are positive
    and the duration is not zero. *)
Theorem main_meanSpeed_divides_unless_zero
  (train : MainGo.Training.t) (swim : MainGo.Swimming.t) :
  (MainGo.Training.Duration train = 0 ->
     MainGo.Training.meanSpeed train = zero) /\
  (MainGo.Training.Duration train <> 0 ->
     MainGo.Training.meanSpeed train
     = (MainGo.Training.distance train
        / Time.Hours (MainGo.Training.Duration train))%f64) /\
  (0 < MainGo.Swimming.LengthPool swim ->
   0 < MainGo.Swimming.CountPool swim ->
   MainGo.Training.Duration (MainGo.Swimming.Training swim) <> 0 ->
     MainGo.Swimming.meanSpeed swim
     = (of_int (MainGo.Swimming.LengthPool swim)
        * of_int (MainGo.Swimming.CountPool swim) / MainGo.MInKm
        / Time.Hours (MainGo.Training.Duration (MainGo.Swimming.Training swim)))%f64).
Proof.
  unfold MainGo.Training.meanSpeed, MainGo.Swimming.meanSpeed.
  rewrite !Hours_eqb.
  repeat split.
  - intros ->. reflexivity.
  - intros H. apply Z.eqb_neq in H. rewrite H. reflexivity.
  - intros HL HC H. apply Z.eqb_neq in H. rewrite H.
    apply Z.leb_gt in HL, HC. rewrite HL, HC. reflexivity.
Qed.

Lemma main_meanSpeed_divides_unless_zero_witness :
  MainGo.Training.meanSpeed (MainGo.base Inputs.negative_run)
  = (MainGo.Training.distance (MainGo.base Inputs.negative_run)
     / Time.Hours (- (30 * Time.Minute))%Z)%f64 /\
  MainGo.Training.meanSpeed (MainGo.base Inputs.standing_main) = zero /\
  MainGo.Swimming.meanSpeed MainGo.swimTraining
  = (of_int 50 * of_int 5 / MainGo.MInKm
     / Time.Hours (90 * Time.Minute)%Z)%f64.
Proof.
  split; [|split].
  - apply (main_meanSpeed_divides_unless_zero
             (MainGo.base Inputs.negative_run) MainGo.swimTraining).
    vm_compute. discriminate.
  - apply (main_meanSpeed_divides_unless_zero
             (MainGo.base Inputs.standing_main) MainGo.swimTraining).
    reflexivity.
  - apply (main_meanSpeed_divides_unless_zero
             (MainGo.base Inputs.standing_main) MainGo.swimTraining);
      vm_compute; try reflexivity; discriminate.
Defined.

(* ================================================================= *)
(** ** Where the two programs agree *)

(** With the same repetition count, step length and duration, a positive
    count and a duration that is not negative, the guards of the two
    programs decide the same. *)
Lemma same_distance_and_speed
  (a : MainGo.Training.t) (b : Part000.Training.t) :
  MainGo.Training.Action a = Part000.Training.Action b ->
  MainGo.Training.LenStep a = Part000.Training.StepLength b ->
  MainGo.Training.Duration a = Part000.Training.Duration b ->
  0 < MainGo.Training.Action a ->
  0 <= MainGo.Training.Duration a ->
  MainGo.Training.distance a = Part000.Training.distance b /\
  MainGo.Training.meanSpeed a = Part000.Training.meanSpeed b.
Proof.
  intros HA HL HD Ha Hd.
  assert (E : MainGo.Training.distance a = Part000.Training.distance b).
  { unfold MainGo.Training.distance, Part000.Training.distance.
    rewrite <- HA, <- HL.
    apply Z.leb_gt in Ha. rewrite Ha. reflexivity. }
  split; [exact E|].
  unfold MainGo.Training.meanSpeed, Part000.Training.meanSpeed.
  rewrite Hours_eqb, <- HD, <- E.
  destruct (Z.eqb_spec (MainGo.Training.Duration a) 0) as [E0|E0].
  - rewrite E0. reflexivity.
  - assert (H : (MainGo.Training.Duration a <=? 0) = false)
      by (apply Z.leb_gt; lia).
    rewrite H. reflexivity.
Qed.

(** X2: for one workout with a positive repetition count and a duration
    that is not negative, the two programs compute the same distance and
    the same mean speed from the embedded [Training]: the guards differ
    only outside this domain. *)
Theorem versions_agree_on_distance_and_speed
  (a : MainGo.Training.t) (b : Part000.Training.t) :
  Versions.same_training a b ->
  0 < MainGo.Training.Action a ->
  0 <= MainGo.Training.Duration a ->
  MainGo.Training.distance a = Part000.Training.distance b /\
  MainGo.Training.meanSpeed a = Part000.Training.meanSpeed b.
Proof.
  intros (_ & HA & HL & HD & _) Ha Hd.
  apply same_distance_and_speed; assumption.
Qed.

Lemma versions_agree_on_distance_and_speed_witness :
  let a := MainGo.Running.Training MainGo.runTraining in
  let b := Part000.Running.Training Part000.running in
  Versions.same_training a b /\
  0 < MainGo.Training.Action a /\
  0 <= MainGo.Training.Duration a /\
  MainGo.Training.distance a = Part000.Training.distance b /\
  MainGo.Training.meanSpeed a = Part000.Training.meanSpeed b.
Proof.
  intros a b.
  assert (H1 : Versions.same_training a b) by (repeat split).
  assert (H2 : 0 < MainGo.Training.Action a) by reflexivity.
  assert (H3 : 0 <= MainGo.Training.Duration a) by discriminate.
  exact (conj H1 (conj H2 (conj H3
           (versions_agree_on_distance_and_speed a b H1 H2 H3)))).
Defined.

(** X3: for such a workout, what [part_000] prints for a Running or a
    Walking value is what [main.go]'s [TrainingInfo] renders before
    [ReadData] overwrites the calories: the two summaries differ in the
    calories field only. *)
Theorem part000_summary_is_main_before_overwrite
  (a : MainGo.Training.t) (b : Part000.Training.t) :
  Versions.same_training a b ->
  0 < MainGo.Training.Action a ->
  0 <= MainGo.Training.Duration a ->
  Part000.ReadData (Part000.Running.Build b)
  = MainGo.Sprint (MainGo.TrainingInfo (MainGo.Running.Build a)) /\
  forall height : float64,
    Part000.ReadData (Part000.Walking.Build b height)
    = MainGo.Sprint (MainGo.TrainingInfo (MainGo.Walking.Build a height)).
Proof.
  intros (HT & HA & HL & HD & _) Ha Hd.
  destruct (same_distance_and_speed a b HA HL HD Ha Hd) as [E1 E2].
  assert (E : Part000.InfoMessage.String (Part000.Training.TrainingInfo b)
              = MainGo.InfoMessage.String (MainGo.Training.TrainingInfo a)).
  { unfold Part000.InfoMessage.String, MainGo.InfoMessage.String,
      Part000.Training.TrainingInfo, MainGo.Training.TrainingInfo.
    cbn [Part000.InfoMessage.Type_ Part000.InfoMessage.Duration
         Part000.InfoMessage.Distance Part000.InfoMessage.MeanSpeed
         Part000.InfoMessage.Calories
         MainGo.InfoMessage.TrainingType MainGo.InfoMessage.Duration
         MainGo.InfoMessage.Distance MainGo.InfoMessage.MeanSpeed
         MainGo.InfoMessage.Calories].
    rewrite <- HT, <- HD, <- E1, <- E2. reflexivity. }
  split; [exact E | intros height; exact E].
Qed.

Lemma part000_summary_is_main_before_overwrite_witness :
  let a := MainGo.Walking.Training MainGo.walkTraining in
  let b := Part000.Walking.Training Part000.walking in
  Versions.same_training a b /\
  0 < MainGo.Training.Action a /\
  0 <= MainGo.Training.Duration a /\
  Part000.ReadData Part000.walking
  = MainGo.Sprint (MainGo.TrainingInfo MainGo.walkTraining).
Proof.
  intros a b.
  assert (H1 : Versions.same_training a b) by (repeat split).
  assert (H2 : 0 < MainGo.Training.Action a) by reflexivity.
  assert (H3 : 0 <= MainGo.Training.Duration a) by discriminate.
  exact (conj H1 (conj H2 (conj H3
           (proj2 (part000_summary_is_main_before_overwrite a b H1 H2 H3)
              (of_int 185))))).
Defined.

(* ================================================================= *)
(** ** [TrainingInfo] in [src/main.go] *)

(** X4: in [main.go] the message [TrainingInfo] returns for a Running or a
    Walking value always carries zero calories (the method delegates to the
    embedded [Training]); only Swimming's own [TrainingInfo] carries the
    kind's calories, so for a Swimming value the overwrite in [ReadData]
    changes nothing. *)
Theorem main_TrainingInfo_calories :
  (forall run : MainGo.Running.t,
     MainGo.InfoMessage.Calories (MainGo.TrainingInfo run) = zero) /\
  (forall walk : MainGo.Walking.t,
     MainGo.InfoMessage.Calories (MainGo.TrainingInfo walk) = zero) /\
  (forall swim : MainGo.Swimming.t,
     MainGo.InfoMessage.Calories (MainGo.TrainingInfo swim)
       = MainGo.Swimming.Calories swim /\
     MainGo.InfoMessage.MeanSpeed (MainGo.TrainingInfo swim)
       = MainGo.Swimming.meanSpeed swim /\
     MainGo.ReadData swim = MainGo.Sprint (MainGo.TrainingInfo swim)).
Proof. repeat split. Qed.

(* ================================================================= *)
(** ** What [src/unnamed/part_000] ignores *)

(** X6: in [part_000] the summary depends on the label, the repetition
    count, the step length and the duration only: a run, a walk and a swim
    that agree on these print the same text, whatever the weights, the
    height and the pool. *)
Theorem part000_summary_ignores_kind_and_weight
  (r : Part000.Running.t) (w : Part000.Walking.t) (s : Part000.Swimming.t) :
  Versions.same_but_weight
    (Part000.Running.Training r) (Part000.Walking.Training w) ->
  Versions.same_but_weight
    (Part000.Running.Training r) (Part000.Swimming.Training s) ->
  Part000.ReadData r = Part000.ReadData w /\
  Part000.ReadData r = Part000.ReadData s.
Proof.
  intros (A1 & A2 & A3 & A4) (B1 & B2 & B3 & B4).
  unfold Part000.ReadData, Part000.TrainingInfo,
    Part000.Running_CaloriesCalculator, Part000.Walking_CaloriesCalculator,
    Part000.Swimming_CaloriesCalculator,
    Part000.Running.TrainingInfo, Part000.Walking.TrainingInfo,
    Part000.Swimming.TrainingInfo, Part000.Training.TrainingInfo,
    Part000.Training.meanSpeed, Part000.Training.distance.
  rewrite <- A1, <- A2, <- A3, <- A4, <- B1, <- B2, <- B3, <- B4.
  split; reflexivity.
Qed.

Lemma part000_summary_ignores_kind_and_weight_witness :
  let t0 := Part000.Training.Build "Плавание" 2000 Part000.SwimmingLenStep
              (90 * Time.Minute) (of_int 60) in
  Part000.ReadData (Part000.Running.Build t0)
  = Part000.ReadData (Part000.Walking.Build t0 (of_int 170)) /\
  Part000.ReadData (Part000.Running.Build t0)
  = Part000.ReadData Part000.swimming.
Proof.
  intros t0.
  apply (part000_summary_ignores_kind_and_weight
           (Part000.Running.Build t0)
           (Part000.Walking.Build t0 (of_int 170))
           Part000.swimming); repeat split.
Defined.

(* ================================================================= *)
(** ** The verb [%.pf] *)

Module FmtFacts.

Local Open Scope string_scope.

(** The decimal digits of a number start with a digit. *)
Lemma digits_head (n : Z) :
  exists c r, Fmt.digits n = String c r /\ Ascii.eqb c "-" = false.
Proof.
  unfold Fmt.digits.
  destruct (N.to_uint (Z.to_N n)); cbn; eauto.
Qed.

Lemma fixed_no_minus (p : nat) (k : Z) :
  Fmt.starts_with_minus (Fmt.fixed p k) = false.
Proof.
  unfold Fmt.fixed. destruct p as [|p].
  - destruct (digits_head k) as (c & r & -> & H). exact H.
  - destruct (digits_head (k / 10 ^ Z.of_nat (S p))) as (c & r & -> & H).
    exact H.
Qed.

(** *** Newlines *)

Lemma count_nl_app (a b : string) :
  Fmt.count_nl (a ++ b) = (Fmt.count_nl a + Fmt.count_nl b)%nat.
Proof.
  induction a as [|c a IH]; cbn [append Fmt.count_nl]; [reflexivity|].
  rewrite IH. lia.
Qed.

Lemma count_nl_uint (u : Decimal.uint) :
  Fmt.count_nl (NilEmpty.string_of_uint u) = O.
Proof. induction u; cbn; auto. Qed.

Lemma count_nl_digits (n : Z) : Fmt.count_nl (Fmt.digits n) = O.
Proof.
  unfold Fmt.digits, NilZero.string_of_uint.
  destruct (N.to_uint (Z.to_N n)) eqn:E; try reflexivity;
    apply count_nl_uint.
Qed.

Lemma count_nl_zeros (n : nat) : Fmt.count_nl (Fmt.zeros n) = O.
Proof. induction n; cbn; auto. Qed.

Lemma count_nl_fixed (p : nat) (k : Z) : Fmt.count_nl (Fmt.fixed p k) = O.
Proof.
  unfold Fmt.fixed, Fmt.pad. destruct p.
  - apply count_nl_digits.
  - rewrite !count_nl_app, !count_nl_digits, count_nl_zeros. reflexivity.
Qed.

Lemma count_nl_verb_f (p : nat) (x : float64) :
  Fmt.count_nl (Fmt.verb_f p x) = O.
Proof.
  unfold Fmt.verb_f. cbv zeta.
  destruct x as [s|s| |s m e].
  - rewrite count_nl_app, count_nl_fixed. destruct s; reflexivity.
  - destruct s; reflexivity.
  - reflexivity.
  - rewrite count_nl_app, count_nl_fixed. destruct s; reflexivity.
Qed.

End FmtFacts.

(** X7: [%.pf] writes a minus sign exactly for the values whose sign bit
    is set: negative numbers, [-Inf] and the negative zero (also a
    negative number that rounds to zero); NaN and [+Inf] get none. *)
Theorem verb_f_minus_sign (p : nat) (x : float64) :
  Fmt.starts_with_minus (Fmt.verb_f p x) = sign_bit x.
Proof.
  unfold Fmt.verb_f. cbv zeta.
  destruct x as [s|s| |s m e]; cbn [sign_bit].
  - destruct s; [reflexivity|]. apply FmtFacts.fixed_no_minus.
  - destruct s; reflexivity.
  - reflexivity.
  - destruct s; [reflexivity|]. apply FmtFacts.fixed_no_minus.
Qed.

(** A value whose sign bit is clear, or NaN, is printed without a minus
    sign; a value whose sign bit is set is printed with one. *)
Lemma NN_no_minus (p : nat) (x : float64) :
  NN x -> Fmt.starts_with_minus (Fmt.verb_f p x) = false.
Proof.
  unfold Fmt.verb_f. cbv zeta.
  destruct x as [s|s| |s m e]; cbn [NN]; intros H; subst;
    try reflexivity; apply FmtFacts.fixed_no_minus.
Qed.

Lemma sign_bit_minus (p : nat) (x : float64) :
  sign_bit x = true -> Fmt.starts_with_minus (Fmt.verb_f p x) = true.
Proof.
  unfold Fmt.verb_f. cbv zeta.
  destruct x as [s|s| |s m e]; cbn [sign_bit]; intros H; subst;
    try discriminate; reflexivity.
Qed.

Lemma Minutes_NN (d : Time.Duration) : 0 <= d -> NN (Time.Minutes d).
Proof.
  intros H. unfold Time.Minutes.
  assert (0 <= Z.quot d Time.Minute)
    by (apply Z.quot_pos; [exact H | reflexivity]).
  assert (0 <= Z.rem d Time.Minute)
    by (apply Z.rem_nonneg; [discriminate | exact H]).
  auto with f64.
Qed.

(** X8: no number of a summary is printed with a minus sign when the
    duration is not negative ([main.go]), respectively when the repetition
    count is not negative and the pool product is a non-negative [int]
    ([part_000]): neither the distance, the mean speed nor the calories,
    at any precision, nor the minutes of a non-negative duration. *)
Theorem no_minus_sign_printed
  (w : MainGo.Workout) (k : Part000.Workout) (p : nat) :
  0 <= MainGo.Training.Duration (MainGo.base w) ->
  0 <= Part000.Training.Action (Part000.base k) ->
  0 <= Part000.Training.Duration (Part000.base k) ->
  Spec.pool_in_range k ->
  (Fmt.starts_with_minus
     (Fmt.verb_f p (Time.Minutes (MainGo.Training.Duration (MainGo.base w))))
   = false /\
   Fmt.starts_with_minus (Fmt.verb_f p (MainGo.distance w)) = false /\
   Fmt.starts_with_minus (Fmt.verb_f p (MainGo.meanSpeed w)) = false /\
   Fmt.starts_with_minus (Fmt.verb_f p (MainGo.calories w)) = false) /\
  (Fmt.starts_with_minus
     (Fmt.verb_f p
        (Time.Minutes (Part000.Training.Duration (Part000.base k))))
   = false /\
   Fmt.starts_with_minus (Fmt.verb_f p (Part000.distance k)) = false /\
   Fmt.starts_with_minus (Fmt.verb_f p (Part000.meanSpeed k)) = false /\
   Fmt.starts_with_minus (Fmt.verb_f p (Part000.calories k)) = false).
Proof.
  intros Hd Ha Hd' Hp.
  split; repeat split; apply NN_no_minus.
  - apply Minutes_NN, Hd.
  - apply MainGoFacts.main_distance_NN.
  - destruct w as [run|walk|swim]; cbn [MainGo.meanSpeed MainGo.base] in *.
    + apply MainGoFacts.main_meanSpeed_NN, Hd.
    + apply MainGoFacts.main_meanSpeed_NN, Hd.
    + apply MainGoFacts.main_Swimming_meanSpeed_NN, Hd.
  - destruct w as [run|walk|swim]; cbn [MainGo.calories MainGo.base] in *.
    + apply MainGoFacts.main_Running_Calories_NN, Hd.
    + apply MainGoFacts.main_Walking_Calories_NN, Hd.
    + apply MainGoFacts.main_Swimming_Calories_NN, Hd.
  - apply Minutes_NN, Hd'.
  - apply Part000Facts.part_distance_NN, Ha.
  - destruct k as [r|wk|s]; cbn [Part000.meanSpeed Part000.base] in *.
    + apply Part000Facts.part_meanSpeed_NN, Ha.
    + apply Part000Facts.part_meanSpeed_NN, Ha.
    + apply Part000Facts.part_Swimming_meanSpeed_NN; apply Hp.
  - destruct k as [r|wk|s]; cbn [Part000.calories].
    + apply Part000Facts.part_Running_Calories_NN.
    + apply Part000Facts.part_Walking_Calories_NN.
    + apply Part000Facts.part_Swimming_Calories_NN.
Qed.

Lemma no_minus_sign_printed_witness :
  let w := MainGo.OfSwimming MainGo.swimTraining in
  let k := Part000.OfSwimming Part000.swimming in
  Fmt.starts_with_minus (Fmt.verb_f 2 (MainGo.calories w)) = false /\
  Fmt.starts_with_minus (Fmt.verb_f 2 (Part000.meanSpeed k)) = false.
Proof.
  intros w k.
  assert (H1 : 0 <= MainGo.Training.Duration (MainGo.base w))
    by discriminate.
  assert (H2 : 0 <= Part000.Training.Action (Part000.base k))
    by discriminate.
  assert (H3 : 0 <= Part000.Training.Duration (Part000.base k))
    by discriminate.
  assert (H4 : Spec.pool_in_range k) by (split; discriminate).
  destruct (no_minus_sign_printed w k 2 H1 H2 H3 H4)
    as ((_ & _ & _ & A) & (_ & _ & B & _)).
  exact (conj A B).
Defined.

(** X9: a summary has exactly five lines: the text [InfoMessage.String]
    builds holds five newline characters beside those of the workout's
    label, whatever the numbers are (NaN and infinities included); so has
    the text [ReadData] returns, for every implementation of the
    interface, in both programs. *)
Theorem summary_has_five_lines
  (T U : Type) `{MainGo.CaloriesCalculator T} `{Part000.CaloriesCalculator U}
  (a : T) (b : U) :
  Fmt.count_nl (MainGo.ReadData a)
  = (5 + Fmt.count_nl
           (MainGo.InfoMessage.TrainingType (MainGo.TrainingInfo a)))%nat /\
  Fmt.count_nl (Part000.ReadData b)
  = (5 + Fmt.count_nl
           (Part000.InfoMessage.Type_ (Part000.TrainingInfo b)))%nat.
Proof.
  unfold MainGo.ReadData, MainGo.Sprint, Part000.ReadData,
    MainGo.InfoMessage.String, Part000.InfoMessage.String.
  cbn [MainGo.InfoMessage.set_Calories MainGo.InfoMessage.TrainingType
       MainGo.InfoMessage.Duration MainGo.InfoMessage.Distance
       MainGo.InfoMessage.MeanSpeed MainGo.InfoMessage.Calories].
  rewrite !FmtFacts.count_nl_app, !FmtFacts.count_nl_verb_f.
  generalize (Fmt.count_nl
                (MainGo.InfoMessage.TrainingType (MainGo.TrainingInfo a))).
  generalize (Fmt.count_nl
                (Part000.InfoMessage.Type_ (Part000.TrainingInfo b))).
  intros n m. cbn. split; lia.
Qed.

(* ================================================================= *)
(** ** Integers below [2 ^ 53] *)

Module F64Exact.

(** A mantissa of 53 digits with an exponent in range is kept as it is. *)
Lemma binary_round_aux_53 (s : bool) (m : positive) (e : Z) :
  Z.pos (digits2_pos m) = 53 -> -1074 <= e <= 971 ->
  binary_round_aux prec emax s (Z.pos m) e loc_Exact = S754_finite s m e.
Proof.
  intros Hd He.
  assert (E : forall l, shr_fexp prec emax (Z.pos m) e l
                        = (shr_record_of_loc (Z.pos m) l, e)).
  { intros l. unfold shr_fexp. cbn [Zdigits2]. rewrite Hd.
    replace (fexp prec emax (53 + e) - e) with 0
      by (unfold fexp, emin, prec, emax; lia).
    reflexivity. }
  unfold binary_round_aux. rewrite E. cbn [shr_record_of_loc shr_m
    loc_of_shr_record round_nearest_even]. rewrite E.
  cbn [shr_record_of_loc shr_m].
  replace (e <=? emax - prec) with true
    by (symmetry; apply Z.leb_le; unfold emax, prec; lia).
  reflexivity.
Qed.

(** [float64(n)] is exact for [0 < n < 2 ^ 53]: a finite positive number
    [m * 2 ^ e] with [e <= 0] and [m = n * 2 ^ (- e)]. *)
Lemma of_int_exact (n : Z) :
  0 < n < 2 ^ 53 ->
  exists (m : positive) (e : Z),
    of_int n = S754_finite false m e /\ -52 <= e <= 0 /\
    Z.pos m = n * 2 ^ (- e).
Proof.
  intros [H0 H1]. destruct n as [|p|p]; try lia.
  pose proof (digits2_pos_bounds p) as [Hl Hu].
  assert (Hd : Z.pos (digits2_pos p) <= 53).
  { assert (Z.pos (digits2_pos p) - 1 < 53); [|lia].
    apply (Z.pow_lt_mono_r_iff 2); lia. }
  unfold of_int, binary_normalize, binary_round, shl_align.
  replace (fexp prec emax (Z.pos (digits2_pos p) + 0))
    with (Z.pos (digits2_pos p) - 53)
    by (unfold fexp, emin, prec, emax; lia).
  destruct (Z.pos (digits2_pos p) - 53 - 0) as [|d|d] eqn:E; try lia.
  - exists p, 0. rewrite binary_round_aux_53 by lia.
    split; [reflexivity|]. split; [lia|]. simpl. lia.
  - exists (Pos.iter xO p d), (Z.pos (digits2_pos p) - 53).
    rewrite binary_round_aux_53
      by (rewrite ?digits2_pos_iter_xO; lia).
    split; [reflexivity|]. split; [lia|].
    rewrite Zpos_iter_xO. f_equal. f_equal. lia.
Qed.

End F64Exact.

(** Whole minutes and hours convert without a fraction. *)
Lemma Minutes_whole (k : Z) : Time.Minutes (k * Time.Minute) = of_int k.
Proof.
  unfold Time.Minutes.
  rewrite Z.quot_mul, Z.rem_mul by discriminate.
  change (of_int 0 / of_int (60 * 1000000000))%f64 with zero.
  destruct (Z.lt_trichotomy k 0) as [H|[H|H]].
  - apply (add_zero_r true 1), of_int_order_neg, H.
  - rewrite H. reflexivity.
  - apply (add_zero_r false 1), of_int_order_pos, H.
Qed.

Lemma Hours_whole (k : Z) : Time.Hours (k * Time.Hour) = of_int k.
Proof.
  unfold Time.Hours.
  rewrite Z.quot_mul, Z.rem_mul by discriminate.
  change (of_int 0 / of_int (60 * 60 * 1000000000))%f64 with zero.
  destruct (Z.lt_trichotomy k 0) as [H|[H|H]].
  - apply (add_zero_r true 1), of_int_order_neg, H.
  - rewrite H. reflexivity.
  - apply (add_zero_r false 1), of_int_order_pos, H.
Qed.

(** An integer below [2 ^ 53] is printed digit for digit. *)
Lemma verb_f_of_int (p : nat) (n : Z) :
  0 <= n < 2 ^ 53 ->
  Fmt.verb_f p (of_int n) = Fmt.fixed p (n * 10 ^ Z.of_nat p).
Proof.
  intros [H0 H1]. destruct (Z.eq_dec n 0) as [->|Hn]; [reflexivity|].
  destruct (F64Exact.of_int_exact n ltac:(lia)) as (m & e & -> & He & Hm).
  unfold Fmt.verb_f. cbv zeta. cbn [append].
  f_equal. rewrite Hm.
  destruct (Z.leb_spec 0 e) as [Hle|Hlt].
  - replace e with 0 by lia. simpl (- 0). rewrite !Z.pow_0_r. lia.
  - unfold Fmt.round_half_even.
    set (t := 2 ^ (- e)).
    assert (Ht : 0 < t) by (apply Z.pow_pos_nonneg; lia).
    replace (n * t * 10 ^ Z.of_nat p) with (n * 10 ^ Z.of_nat p * t) by lia.
    rewrite Z.div_mul, Z.mod_mul by lia.
    replace (2 * 0 ?= t) with Lt by (symmetry; apply Z.compare_lt_iff; lia).
    reflexivity.
Qed.

(** X5: a duration of [k] whole minutes, [0 <= k < 2 ^ 53], is printed by
    [%.0f] of [Duration.Minutes()] as the decimal digits of [k]: the
    duration line of a summary is exact for whole minutes.  Likewise
    [Duration.Hours()] of [k] whole hours is exactly [float64(k)]. *)
Theorem whole_minutes_printed_exactly (k : Z) :
  0 <= k < 2 ^ 53 ->
  Fmt.verb_f 0 (Time.Minutes (k * Time.Minute)) = Fmt.digits k /\
  Time.Hours (k * Time.Hour) = of_int k.
Proof.
  intros H. split; [|apply Hours_whole].
  rewrite Minutes_whole, verb_f_of_int by exact H.
  unfold Fmt.fixed. simpl (Z.of_nat 0). rewrite Z.pow_0_r, Z.mul_1_r.
  reflexivity.
Qed.

Lemma whole_minutes_printed_exactly_witness :
  0 <= 225 < 2 ^ 53 /\
  Fmt.verb_f 0 (Time.Minutes (225 * Time.Minute)) = Fmt.digits 225 /\
  Time.Hours (225 * Time.Hour) = of_int 225.
Proof.
  assert (H : 0 <= 225 < 2 ^ 53) by (split; [discriminate | reflexivity]).
  exact (conj H (whole_minutes_printed_exactly 225 H)).
Defined.

Module F64Product.

(** [float64(n)] for [0 < n < 2 ^ 53], with its normalised mantissa. *)
Lemma of_int_normal (n : Z) :
  0 < n < 2 ^ 53 ->
  exists (m : positive) (e : Z),
    of_int n = S754_finite false m e /\ -52 <= e <= 0 /\
    Z.pos m = n * 2 ^ (- e) /\ Z.pos (digits2_pos m) = 53.
Proof.
  intros H.
  destruct (F64Exact.of_int_exact n H) as (m & e & E & He & Hm).
  exists m, e. repeat split; try assumption; try lia.
  revert E. unfold of_int, binary_normalize, binary_round, shl_align.
  destruct n as [|p|p]; try lia.
  pose proof (digits2_pos_bounds p) as [Hl Hu].
  assert (Hd : Z.pos (digits2_pos p) <= 53).
  { assert (Z.pos (digits2_pos p) - 1 < 53); [|lia].
    apply (Z.pow_lt_mono_r_iff 2); lia. }
  replace (fexp prec emax (Z.pos (digits2_pos p) + 0))
    with (Z.pos (digits2_pos p) - 53)
    by (unfold fexp, emin, prec, emax; lia).
  destruct (Z.pos (digits2_pos p) - 53 - 0) as [|d|d] eqn:Ed; try lia.
  - rewrite F64Exact.binary_round_aux_53 by lia.
    intros [= <- <-]. lia.
  - rewrite F64Exact.binary_round_aux_53
      by (rewrite ?digits2_pos_iter_xO; lia).
    intros [= <- <-]. rewrite digits2_pos_iter_xO. lia.
Qed.

(** Shifting out zeros is exact. *)
Lemma iter_pos_shr_1_iter_xO (p : positive) :
  forall m : positive,
  iter_pos shr_1 p (Build_shr_record (Z.pos (Pos.iter xO m p)) false false)
  = Build_shr_record (Z.pos m) false false.
Proof.
  induction p as [p IH|p IH|]; intros m; cbn [iter_pos Pos.iter].
  - cbn [shr_1 orb]. rewrite IH, IH. reflexivity.
  - rewrite IH, IH. reflexivity.
  - reflexivity.
Qed.

(** The product of two integers is exact as long as it stays below
    [2 ^ 53]. *)
Lemma mul_exact (a b : Z) :
  0 < a -> 0 < b -> a * b < 2 ^ 53 ->
  (of_int a * of_int b)%f64 = of_int (a * b).
Proof.
  intros Ha Hb Hab.
  assert (Ha' : a < 2 ^ 53) by nia.
  assert (Hb' : b < 2 ^ 53) by nia.
  destruct (of_int_normal a ltac:(lia)) as (ma & ea & -> & Hea & Hma & Hda).
  destruct (of_int_normal b ltac:(lia)) as (mb & eb & -> & Heb & Hmb & Hdb).
  destruct (of_int_normal (a * b) ltac:(nia))
    as (mc & ec & -> & Hec & Hmc & Hdc).
  unfold mul. cbn [SFmul xorb].
  pose proof (digits2_pos_bounds ma) as [Hla _].
  pose proof (digits2_pos_bounds mb) as [Hlb _].
  pose proof (digits2_pos_bounds mc) as [_ Huc].
  rewrite Hda in Hla. rewrite Hdb in Hlb. rewrite Hdc in Huc.
  set (A := - ea) in *. set (B := - eb) in *. set (C := - ec) in *.
  (* M * 2^C = mc * 2^(A+B) *)
  assert (HM : Z.pos (ma * mb) * 2 ^ C = Z.pos mc * 2 ^ (A + B)).
  { rewrite Pos2Z.inj_mul, Hma, Hmb, Hmc, Z.pow_add_r by lia. ring. }
  assert (HMl : 2 ^ 104 <= Z.pos (ma * mb)).
  { rewrite Pos2Z.inj_mul. change (2 ^ 104) with (2 ^ 52 * 2 ^ 52).
    apply Z.mul_le_mono_nonneg; lia. }
  assert (Hn : 51 + C < A + B).
  { apply (Z.pow_lt_mono_r_iff 2); [lia | lia |].
    assert (0 < 2 ^ C) by (apply Z.pow_pos_nonneg; lia).
    assert (0 < 2 ^ (A + B)) by (apply Z.pow_pos_nonneg; lia).
    rewrite Z.pow_add_r by lia. change (2 ^ 51) with 2251799813685248.
    change (2 ^ 104) with (2251799813685248 * 2 ^ 53) in HMl.
    change (2 ^ 53) with 9007199254740992 in *.
    nia. }
  set (n := A + B - C).
  assert (HMn : Z.pos (ma * mb) = Z.pos mc * 2 ^ n).
  { assert (0 < 2 ^ C) by (apply Z.pow_pos_nonneg; lia).
    apply (Z.mul_cancel_r _ _ (2 ^ C)); [lia|].
    rewrite HM, <- Z.mul_assoc, <- Z.pow_add_r by (subst n; lia).
    f_equal. f_equal. subst n. lia. }
  destruct n as [|np|np] eqn:En; try lia.
  rewrite <- Zpos_iter_xO in HMn. injection HMn as HMn.
  unfold binary_round_aux.
  assert (E1 : shr_fexp prec emax (Z.pos (ma * mb)) (ea + eb) loc_Exact
               = (Build_shr_record (Z.pos mc) false false, ec)).
  { unfold shr_fexp. cbn [Zdigits2]. rewrite HMn, digits2_pos_iter_xO, Hdc.
    replace (fexp prec emax (53 + Z.pos np + (ea + eb)) - (ea + eb))
      with (Z.pos np)
      by (unfold fexp, emin, prec, emax; lia).
    cbn [shr shr_record_of_loc].
    rewrite iter_pos_shr_1_iter_xO. f_equal. lia. }
  rewrite E1. cbn [shr_m loc_of_shr_record round_nearest_even].
  assert (E2 : shr_fexp prec emax (Z.pos mc) ec loc_Exact
               = (Build_shr_record (Z.pos mc) false false, ec)).
  { unfold shr_fexp. cbn [Zdigits2]. rewrite Hdc.
    replace (fexp prec emax (53 + ec) - ec) with 0
      by (unfold fexp, emin, prec, emax; lia).
    reflexivity. }
  rewrite E2. cbn [shr_m].
  replace (ec <=? emax - prec) with true
    by (symmetry; apply Z.leb_le; unfold emax, prec; lia).
  reflexivity.
Qed.

End F64Product.

(** On a value whose sign bit is clear, or NaN, the guards [x == 0] and
    [x <= 0] decide the same. *)
Lemma NN_eqb_leb (x : float64) :
  NN x -> (x == zero)%f64 = (x <=? zero)%f64.
Proof.
  destruct x as [s|s| |s m e]; cbn [NN]; try reflexivity;
    intros ->; reflexivity.
Qed.

(** X10: for one swim with positive pool length and crossing count whose
    product is below [2 ^ 53], and a duration that is not negative, the
    two programs compute the same mean speed and the same calories:
    [float64(length) * float64(count)] of [main.go] and
    [float64(length * count)] of [part_000] are the same number, and the
    guards [meanSpeed == 0] and [meanSpeed <= 0] decide the same. *)
Theorem versions_agree_on_swimming
  (a : MainGo.Swimming.t) (b : Part000.Swimming.t) :
  Versions.same_training
    (MainGo.Swimming.Training a) (Part000.Swimming.Training b) ->
  MainGo.Swimming.LengthPool a = Part000.Swimming.PoolLength b ->
  MainGo.Swimming.CountPool a = Part000.Swimming.PoolCount b ->
  0 < MainGo.Swimming.LengthPool a ->
  0 < MainGo.Swimming.CountPool a ->
  MainGo.Swimming.LengthPool a * MainGo.Swimming.CountPool a < 2 ^ 53 ->
  0 <= MainGo.Training.Duration (MainGo.Swimming.Training a) ->
  MainGo.Swimming.meanSpeed a = Part000.Swimming.meanSpeed b /\
  MainGo.Swimming.Calories a = Part000.Swimming.Calories b.
Proof.
  intros (_ & _ & _ & HD & HW) HL HC Hl Hc Hlc Hd.
  assert (E : MainGo.Swimming.meanSpeed a = Part000.Swimming.meanSpeed b).
  { unfold MainGo.Swimming.meanSpeed, Part000.Swimming.meanSpeed.
    rewrite Hours_eqb, <- HL, <- HC, <- HD.
    apply Z.leb_gt in Hl as Hl', Hc as Hc'. rewrite Hl', Hc'. cbn [orb].
    destruct (Z.eqb_spec (MainGo.Training.Duration (MainGo.Swimming.Training a)) 0)
      as [E0|E0].
    - rewrite E0. reflexivity.
    - assert (H : (MainGo.Training.Duration (MainGo.Swimming.Training a) <=? 0)
                  = false) by (apply Z.leb_gt; lia).
      rewrite H.
      rewrite Part000Facts.GoInt_mul_small
        by (unfold GoInt.max_int; change (2 ^ 53) with 9007199254740992 in Hlc;
            change (2 ^ 63 - 1) with 9223372036854775807; nia).
      rewrite F64Product.mul_exact by assumption. reflexivity. }
  split; [exact E|].
  unfold MainGo.Swimming.Calories, Part000.Swimming.Calories.
  rewrite <- E, <- HW, <- HD.
  rewrite (NN_eqb_leb (MainGo.Swimming.meanSpeed a))
    by (apply MainGoFacts.main_Swimming_meanSpeed_NN, Hd).
  reflexivity.
Qed.

Lemma versions_agree_on_swimming_witness :
  MainGo.Swimming.meanSpeed MainGo.swimTraining
  = Part000.Swimming.meanSpeed Part000.swimming /\
  MainGo.Swimming.Calories MainGo.swimTraining
  = Part000.Swimming.Calories Part000.swimming.
Proof.
  apply (versions_agree_on_swimming MainGo.swimTraining Part000.swimming);
    try reflexivity.
  - repeat split.
  - discriminate.
Defined.

(** A quotient of a value that is not negative by a negative one has its
    sign bit set, unless it is NaN. *)
Lemma div_NN_negative (k : Z) (x y : float64) :
  NN x -> order_ge true k y ->
  is_nan (x / y)%f64 = true \/ sign_bit (x / y)%f64 = true.
Proof.
  unfold div.
  destruct x as [sx|sx| |sx mx ex]; destruct y as [sy|sy| |sy my ey];
    cbn [NN order_ge]; intros Hx Hy; try contradiction.
  all: try match goal with H : _ /\ _ |- _ => destruct H as [? _] end.
  all: subst; cbn [SFdiv xorb is_nan sign_bit]; auto.
  right.
  unfold SFdiv_core_binary.
  set (m' := match _ with Z.pos _ => _ | _ => _ end).
  assert (Hm : 0 <= m').
  { subst m'. destruct (_ - _ - _); try lia. apply Z.shiftl_nonneg. lia. }
  pose proof (Z.div_pos m' (Z.pos my) Hm eq_refl) as Hq.
  unfold Z.div in Hq.
  destruct (Z.div_eucl m' (Z.pos my)) as [q r].
  pose proof (binary_round_aux_sign true q
                (Z.min (fexp prec emax (Zdigits2 (Z.pos mx) + ex
                                        - (Zdigits2 (Z.pos my) + ey)))
                   (ex - ey))
                (new_location (Z.pos my) r) Hq) as Hs.
  destruct (binary_round_aux _ _ _ _ _ _); cbn in *; auto; contradiction.
Qed.

(** X11: in [main.go] a negative duration turns the sign of the mean
    speed: for every record whose duration is negative, the mean speed is
    NaN or is printed with a minus sign, whatever the precision; a
    distance of zero is printed as [-0.00]. *)
Theorem main_negative_duration_prints_minus
  (train : MainGo.Training.t) (p : nat) :
  MainGo.Training.Duration train < 0 ->
  is_nan (MainGo.Training.meanSpeed train) = true \/
  Fmt.starts_with_minus (Fmt.verb_f p (MainGo.Training.meanSpeed train))
  = true.
Proof.
  intros H.
  assert (E : MainGo.Training.meanSpeed train
              = (MainGo.Training.distance train
                 / Time.Hours (MainGo.Training.Duration train))%f64).
  { unfold MainGo.Training.meanSpeed. rewrite Hours_eqb.
    assert (E0 : (MainGo.Training.Duration train =? 0) = false)
      by (apply Z.eqb_neq; lia).
    rewrite E0. reflexivity. }
  rewrite E.
  destruct (div_NN_negative (-41) (MainGo.Training.distance train)
              (Time.Hours (MainGo.Training.Duration train)))
    as [Hn|Hs].
  - apply MainGoFacts.main_distance_NN.
  - apply Hours_order, H.
  - left. exact Hn.
  - right. apply sign_bit_minus, Hs.
Qed.

Lemma main_negative_duration_prints_minus_witness :
  MainGo.Training.Duration (MainGo.base Inputs.negative_run) < 0 /\
  (is_nan (MainGo.Training.meanSpeed (MainGo.base Inputs.negative_run))
   = true \/
   Fmt.starts_with_minus
     (Fmt.verb_f 2 (MainGo.Training.meanSpeed (MainGo.base Inputs.negative_run)))
   = true).
Proof.
  assert (H : MainGo.Training.Duration (MainGo.base Inputs.negative_run) < 0)
    by reflexivity.
  exact (conj H (main_negative_duration_prints_minus _ 2 H)).
Defined.
